(** * Qlip: the clipboard-history engine of [qlip.py]

    A shallow embedding of the part of [qlip.py] that owns the clipboard
    history: [ClipboardItem], and the methods of [ClipboardManager] that read
    or change [self.items], [self.list_widget], [self.is_paused] and the class
    counter [ClipboardItem._counter].  Python objects live in an explicit heap
    and are named by references, because the list widget rows and [self.items]
    share the same [ClipboardItem] objects. *)

From Stdlib Require Import ZArith Lia.
From stdpp Require Import base strings list sorting gmap.

Open Scope Z_scope.

(** ** Python values the program handles *)

(** Exceptions that the modelled statements can raise. *)
Inductive exn : Type :=
  | JSONDecodeError   (* json.load on a file that is not JSON *)
  | OSError           (* open() on a file that cannot be opened *)
  | KeyError          (* d[k] on a dict without the key k *)
  | ValueError        (* list.remove(x): x not in list *)
  | TypeError.        (* json.dump, setText, len or slicing on a QPixmap;
                         subscripting a value that is no dict; iterating a
                         value that cannot be iterated *)

Inductive result (A : Type) : Type :=
  | Ok (a : A)
  | Raise (e : exn).
Arguments Ok {A} a.
Arguments Raise {A} e.

(** A decoded image: what [QImage.__eq__] compares. *)
Record QImage : Type := mkQImage {
  img_width : Z;
  img_height : Z;
  img_pixels : list Z
}.

(** A [QPixmap] is observed only through [toImage()]. *)
Record QPixmap : Type := mkQPixmap { toImage : QImage }.

Definition fromImage (img : QImage) : QPixmap := mkQPixmap img.

(** What the program sees of a [QUrl]. *)
Record QUrl : Type := mkQUrl {
  isLocalFile : bool;
  toLocalFile : string
}.

(** [ClipboardItem.data] holds a [str] or a [QPixmap]. *)
Inductive Data : Type :=
  | DStr (s : string)
  | DPix (p : QPixmap).

(** The four tags ['text'], ['url'], ['image'], ['file'] of [data_type]. *)
Inductive DataType : Type := Text | Url | Image | File.

#[global] Instance exn_eq_dec : EqDecision exn.
Proof. solve_decision. Defined.
#[global] Instance QImage_eq_dec : EqDecision QImage.
Proof. solve_decision. Defined.
#[global] Instance QPixmap_eq_dec : EqDecision QPixmap.
Proof. solve_decision. Defined.
#[global] Instance Data_eq_dec : EqDecision Data.
Proof. solve_decision. Defined.
#[global] Instance DataType_eq_dec : EqDecision DataType.
Proof. solve_decision. Defined.

#[global] Instance DStr_inj : Inj (=) (=) DStr.
Proof. by intros s t [= ->]. Qed.

(** ** class ClipboardItem *)

Record ClipboardItem : Type := mkItem {
  data_type : DataType;
  data : Data;
  favorite : bool;
  index : Z
}.

#[global] Instance ClipboardItem_eq_dec : EqDecision ClipboardItem.
Proof. solve_decision. Defined.

#[global] Instance ClipboardItem_inhabited : Inhabited ClipboardItem :=
  populate (mkItem Text (DStr "") false 0).

(** The dict built by [to_dict]. *)
Record Dict : Type := mkDict {
  d_data_type : DataType;
  d_data : Data;
  d_favorite : bool;
  d_index : Z
}.

(** One JSON object of [~/.qlip.json]. *)
Record JRecord : Type := mkJRecord {
  r_data_type : DataType;
  r_data : string;
  r_favorite : bool;
  r_index : Z
}.

#[global] Instance JRecord_eq_dec : EqDecision JRecord.
Proof. solve_decision. Defined.

(** An element met while iterating over what [json.load] returned, as far as
    [from_dict] looks at it: a JSON object, with the values it has under the
    four keys (other keys are not read), or anything else (a list, a string, a
    number, [true], [false], [null]).  The values under the keys are taken at
    the types at which the program writes them. *)
Inductive json_elem : Type :=
  | JObject (o_data_type : option DataType) (o_data : option string)
            (o_favorite : option bool) (o_index : option Z)
  | JNotObject.

(** What [json.load] returned, as far as [for item_data in data] looks at
    it: a list, an object (iterating yields its keys), a string (iterating
    yields its characters) or a value that cannot be iterated. *)
Inductive json : Type :=
  | JArray (l : list json_elem)
  | JDict (keys : list string)
  | JString (s : string)
  | JScalar.

(** What [os.path.exists], [open] and [json.load] find at [~/.qlip.json]:
    no file; a file whose content [json.load] rejects; a JSON list of objects
    that all have the four keys ([Parsed], the form in which the program
    writes the file); a file that exists but cannot be opened; any JSON
    value ([Json], of which [Parsed] is the well-formed case). *)
Inductive file_state : Type :=
  | Absent
  | Unparsable
  | Parsed (recs : list JRecord)
  | Unreadable
  | Json (j : json).

(** ** The state of the process *)

Definition ref : Type := nat.

Record state : Type := mkState {
  heap : list ClipboardItem;   (* every ClipboardItem object ever created *)
  items : list ref;            (* self.items *)
  list_widget : list ref;      (* the Qt.UserRole data of each row, top down *)
  is_paused : bool;            (* self.is_paused *)
  _counter : Z                 (* ClipboardItem._counter *)
}.

Definition set_heap (h : list ClipboardItem) (st : state) : state :=
  mkState h (items st) (list_widget st) (is_paused st) (_counter st).
Definition set_items (l : list ref) (st : state) : state :=
  mkState (heap st) l (list_widget st) (is_paused st) (_counter st).
Definition set_list_widget (l : list ref) (st : state) : state :=
  mkState (heap st) (items st) l (is_paused st) (_counter st).
Definition set_is_paused (b : bool) (st : state) : state :=
  mkState (heap st) (items st) (list_widget st) b (_counter st).
Definition set_counter (c : Z) (st : state) : state :=
  mkState (heap st) (items st) (list_widget st) (is_paused st) c.

(** Dereference: the object a reference points to. *)
Definition deref (st : state) (r : ref) : ClipboardItem := heap st !!! r.

(** [ClipboardItem.__init__] (lines 19-24). *)
Definition ClipboardItem_init (dt : DataType) (d : Data) (fav : bool)
    (st : state) : ref * state :=
  let obj := mkItem dt d fav (_counter st) in
  (length (heap st),
   set_counter (_counter st + 1) (set_heap (heap st ++ [obj]) st)).

(** [ClipboardItem.to_dict] (lines 26-32). *)
Definition to_dict (it : ClipboardItem) : Dict :=
  mkDict (data_type it) (data it) (favorite it) (index it).

(** [ClipboardItem.from_dict] (lines 34-38). *)
Definition from_dict (d : JRecord) (st : state) : ref * state :=
  let '(r, st1) :=
    ClipboardItem_init (r_data_type d) (DStr (r_data d)) (r_favorite d) st in
  let obj := deref st1 r in
  (r, set_heap (<[r := mkItem (data_type obj) (data obj) (favorite obj)
                              (r_index d)]> (heap st1)) st1).

(** ** list.sort(key=lambda x: (not x.favorite, x.index)) *)

(** [<] on the key tuples [(bool, int)]: the first component that differs
    decides, and [False < True]. *)
Definition tuple_lt (a b : bool * Z) : bool :=
  if bool_decide (a.1 = b.1) then a.2 <? b.2 else negb a.1 && b.1.

(** Python's sort is stable and compares with [<] only. *)
Fixpoint insert_sorted {A : Type} (key : A → bool * Z) (x : A) (l : list A)
    : list A :=
  match l with
  | [] => [x]
  | y :: l' =>
      if tuple_lt (key y) (key x) then y :: insert_sorted key x l'
      else x :: y :: l'
  end.

Definition py_sort {A : Type} (key : A → bool * Z) (l : list A) : list A :=
  foldr (insert_sorted key) [] l.

Definition sort_key (it : ClipboardItem) : bool * Z :=
  (negb (favorite it), index it).

(** [max(...)] of a non-empty sequence of ints. *)
Definition py_max (x : Z) (l : list Z) : Z := fold_left Z.max l x.

(** ** class ClipboardManager *)

(** [toggle_pause] (lines 184-191). *)
Definition toggle_pause (st : state) : state :=
  set_is_paused (negb (is_paused st)) st.

(** [delete_all_items] (lines 193-204); [reply_yes] is the answer the
    confirmation dialog returns. *)
Definition delete_all_items (reply_yes : bool) (st : state) : state :=
  if reply_yes then set_counter 0 (set_list_widget [] (set_items [] st))
  else st.

(** [reorder_items] (lines 339-372): sort [self.items] in place and rebuild
    the widget with one row per item, in that order. *)
Definition reorder_items (st : state) : state :=
  let sorted := py_sort (λ r, sort_key (deref st r)) (items st) in
  set_list_widget sorted (set_items sorted st).

(** [add_item_to_list] (lines 257-261). *)
Definition add_item_to_list (r : ref) (st : state) : state :=
  reorder_items (set_items (items st ++ [r]) st).

(** [item.data == data] where [data] is a [str]: a [QPixmap] defines no
    [__eq__], so it is equal to no string. *)
Definition data_eq_str (d : Data) (s : string) : bool :=
  match d with
  | DStr t => bool_decide (t = s)
  | DPix _ => false
  end.

(** [isinstance(item.data, QPixmap) and item.data.toImage() == pixmap.toImage()]. *)
Definition same_image (d : Data) (pixmap : QPixmap) : bool :=
  match d with
  | DStr _ => false
  | DPix q => bool_decide (toImage q = toImage pixmap)
  end.

(** What a [QMimeData] answers to the six calls of [process_mime_data]. *)
Record QMimeData : Type := mkMime {
  hasText : bool;
  text : string;
  hasImage : bool;
  imageData : QImage;
  hasUrls : bool;
  urls : list QUrl
}.

(** What [on_item_clicked] asks of the clipboard, the desktop and the user. *)
Inductive effect : Type :=
  | clipboard_setText (s : string)
  | clipboard_setPixmap (p : QPixmap)
  | clipboard_setPixmap_str (s : string)
      (* clipboard.setPixmap(s) on a str: Qt passes QPixmap(s), the image in
         the file named s, a null pixmap if there is none *)
  | openUrl (u : string)              (* QDesktopServices.openUrl(QUrl(u)) *)
  | openUrl_fromLocalFile (path : string)
  | QMessageBox_warning (msg : string)
  | QMessageBox_information (msg : string).

#[global] Instance effect_eq_dec : EqDecision effect.
Proof. solve_decision. Defined.

Section Manager.

(** The Qt constructor [QUrl(text)] and [os.path.exists]. *)
Variable QUrl_of : string → QUrl.
Variable os_path_exists : string → bool.

(** Lines 218-232: the tag and the payload chosen for a non-empty text. *)
Definition classify_text (t : string) : DataType * string :=
  if String.prefix "http://" t || String.prefix "https://" t then (Url, t)
  else if String.prefix "file://" t then (File, toLocalFile (QUrl_of t))
  else if String.prefix "/" t then (File, t)
  else (Text, t).

(** Lines 248-255: the body of the loop over [mime_data.urls()]. *)
Definition process_url (st : state) (u : QUrl) : state :=
  if isLocalFile u then
    let file_path := toLocalFile u in
    if bool_decide (file_path ≠ "") then
      if negb (existsb (λ r, data_eq_str (data (deref st r)) file_path)
                       (items st))
      then
        let '(r, st1) := ClipboardItem_init File (DStr file_path) false st in
        add_item_to_list r st1
      else st
    else st
  else st.

(** [process_mime_data] (lines 213-255). *)
Definition process_mime_data (mime_data : QMimeData) (st : state) : state :=
  if hasText mime_data then
    let t := text mime_data in
    if bool_decide (t ≠ "") then
      let '(dt, d) := classify_text t in
      if negb (existsb (λ r, data_eq_str (data (deref st r)) d) (items st))
      then
        let '(r, st1) := ClipboardItem_init dt (DStr d) false st in
        add_item_to_list r st1
      else st
    else st
  else if hasImage mime_data then
    let pixmap := fromImage (imageData mime_data) in
    if negb (existsb (λ r, same_image (data (deref st r)) pixmap) (items st))
    then
      let '(r, st1) := ClipboardItem_init Image (DPix pixmap) false st in
      add_item_to_list r st1
    else st
  else if hasUrls mime_data then
    fold_left process_url (urls mime_data) st
  else st.

(** [on_clipboard_change] (lines 206-211); [mime_data] is what
    [self.clipboard.mimeData()] would return. *)
Definition on_clipboard_change (mime_data : QMimeData) (st : state) : state :=
  if is_paused st then st else process_mime_data mime_data st.

(** [dropEvent] (lines 423-426). *)
Definition dropEvent (mime_data : QMimeData) (st : state) : state :=
  process_mime_data mime_data st.

(** [on_item_clicked] (lines 263-289), on the object a row carries. *)
Definition on_item_clicked (clipboard_item : ClipboardItem)
    : result (list effect) :=
  match data_type clipboard_item, data clipboard_item with
  | Text, DStr s =>
      if String.prefix "/" s then
        if os_path_exists s
        then Ok [clipboard_setText s; openUrl_fromLocalFile s]
        else Ok [clipboard_setText s;
                 QMessageBox_warning ("File does not exist: " +:+ s)]
      else Ok [clipboard_setText s;
               QMessageBox_information "Text copied to clipboard."]
  | Url, DStr s => Ok [clipboard_setText s; openUrl s]
  | File, DStr s =>
      if os_path_exists s
      then Ok [clipboard_setText s; openUrl_fromLocalFile s]
      else Ok [clipboard_setText s;
               QMessageBox_warning ("File does not exist: " +:+ s)]
  | Image, DPix p =>
      Ok [clipboard_setPixmap p;
          QMessageBox_information "Image copied to clipboard."]
  | Image, DStr s =>
      Ok [clipboard_setPixmap_str s;
          QMessageBox_information "Image copied to clipboard."]
  | _, DPix _ => Raise TypeError         (* setText(QPixmap) *)
  end.

(** [list.remove(x)]: drop the first occurrence, [ValueError] if none. *)
Fixpoint list_remove (x : ref) (l : list ref) : result (list ref) :=
  match l with
  | [] => Raise ValueError
  | y :: l' =>
      if bool_decide (y = x) then Ok l'
      else match list_remove x l' with
           | Ok l'' => Ok (y :: l'')
           | Raise e => Raise e
           end
  end.

(** [delete_item] (lines 321-325) on the row at position [row]; the context
    menu that calls it exists only for a valid row (lines 293-295). *)
Definition delete_item (row : nat) (st : state) : result state :=
  match list_widget st !! row with
  | None => Ok st
  | Some clipboard_item =>
      match list_remove clipboard_item (items st) with
      | Raise e => Raise e
      | Ok l => Ok (set_list_widget (delete row (list_widget st))
                                    (set_items l st))
      end
  end.

(** [toggle_favorite_item] (lines 327-337) on the row at position [row]. *)
Definition toggle_favorite_item (row : nat) (st : state) : state :=
  match list_widget st !! row with
  | None => st
  | Some r =>
      let obj := deref st r in
      let obj' := mkItem (data_type obj) (data obj) (negb (favorite obj))
                         (index obj) in
      reorder_items (set_heap (<[r := obj']> (heap st)) st)
  end.

(** [json.dump] of the list of dicts: a [QPixmap] is not serializable. *)
Fixpoint json_dump (l : list Dict) : result (list JRecord) :=
  match l with
  | [] => Ok []
  | d :: l' =>
      match d_data d with
      | DPix _ => Raise TypeError
      | DStr s =>
          match json_dump l' with
          | Ok recs =>
              Ok (mkJRecord (d_data_type d) s (d_favorite d) (d_index d)
                  :: recs)
          | Raise e => Raise e
          end
      end
  end.

(** Line 430: the list that [save_items_to_file] hands to [json.dump]. *)
Definition encode (st : state) : list Dict :=
  to_dict <$> filter (λ it, data_type it ≠ Image) (deref st <$> items st).

(** [save_items_to_file] (lines 428-433): the file is opened for writing
    before [json.dump] runs, so a failing dump leaves a truncated file. *)
Definition save_items_to_file (st : state) : file_state * option exn :=
  match json_dump (encode st) with
  | Ok recs => (Parsed recs, None)
  | Raise e => (Unparsable, Some e)
  end.

(** Lines 441-443: one turn of the loop over the loaded list. *)
Definition load_one (st : state) (item_data : JRecord) : state :=
  let '(r, st1) := from_dict item_data st in
  set_items (items st1 ++ [r]) st1.

(** The subscripts [data['data_type']], [data['data']], [data['favorite']]
    and [data['index']] of [from_dict] (lines 36-37): [TypeError] when
    [data] is not a dict, [KeyError] when a key is missing. *)
Definition from_dict_subscripts (item_data : json_elem) : result JRecord :=
  match item_data with
  | JNotObject => Raise TypeError
  | JObject (Some dt) (Some d) (Some fav) (Some i) => Ok (mkJRecord dt d fav i)
  | JObject _ _ _ _ => Raise KeyError
  end.

(** [for item_data in data] (line 441): the elements that the loop meets.  A
    key of a dict and a character of a string are strings, not dicts. *)
Definition iterate (data : json) : result (list json_elem) :=
  match data with
  | JArray l => Ok l
  | JDict keys => Ok ((λ _, JNotObject) <$> keys)
  | JString s => Ok (replicate (String.length s) JNotObject)
  | JScalar => Raise TypeError
  end.

(** Lines 441-443 on the elements of any JSON value: the loop stops at the
    first element on which [from_dict] raises. *)
Fixpoint load_loop (data : list json_elem) (st : state) : result state :=
  match data with
  | [] => Ok st
  | item_data :: rest =>
      match from_dict_subscripts item_data with
      | Raise e => Raise e
      | Ok d => load_loop rest (load_one st d)
      end
  end.

(** Lines 444-450: the counter and the rows after the loop. *)
Definition after_load_loop (st1 : state) : state :=
  let st2 :=
    match items st1 with
    | [] => set_counter 0 st1
    | r :: rs =>
        set_counter
          (py_max (index (deref st1 r)) (index ∘ deref st1 <$> rs) + 1)
          st1
    end in
  reorder_items st2.

(** [load_items_from_file] (lines 435-450). *)
Definition load_items_from_file (f : file_state) (st : state)
    : result state :=
  match f with
  | Absent => Ok st
  | Unparsable => Raise JSONDecodeError
  | Parsed data =>
      let st1 := fold_left load_one data (set_items [] st) in
      let st2 :=
        match items st1 with
        | [] => set_counter 0 st1
        | r :: rs =>
            set_counter
              (py_max (index (deref st1 r)) (index ∘ deref st1 <$> rs) + 1)
              st1
        end in
      Ok (reorder_items st2)
  | Unreadable => Raise OSError
  | Json data =>
      match iterate data with
      | Raise e => Raise e
      | Ok elems =>
          match load_loop elems (set_items [] st) with
          | Raise e => Raise e
          | Ok st1 => Ok (after_load_loop st1)
          end
      end
  end.

(** The state in which a process starts: no object, [_counter = 0]; and
    [ClipboardManager.__init__] (lines 42-157), which sets [self.items] and
    [self.is_paused] and then loads the history file. *)
Definition process_start : state := mkState [] [] [] false 0.

Definition ClipboardManager_init (f : file_state) : result state :=
  load_items_from_file f
    (set_is_paused false (set_items [] process_start)).

End Manager.

(** ** Rows, context menu and export *)

(** [data[:180] + ('...' if len(data) > 180 else '')] (lines 349, 352,
    356). *)
Definition display_text (s : string) : string :=
  String.substring 0 180 s +:+
  (if (180 <? String.length s)%nat then "..." else "").

(** A row of the widget as the loop of [reorder_items] sets it up: its text,
    its icon if any, its foreground colour if one is set, and whether its
    font is bold. *)
Record QListWidgetItem : Type := mkRow {
  row_text : string;
  row_icon : option Data;
  row_foreground : option string;
  row_bold : bool
}.

(** Lines 348-366: the row built for one item.  Slicing a [QPixmap] raises
    [TypeError]. *)
Definition list_item_of (clipboard_item : ClipboardItem)
    : result QListWidgetItem :=
  match data_type clipboard_item, data clipboard_item with
  | Text, DStr s =>
      Ok (mkRow (display_text s) None None (favorite clipboard_item))
  | Url, DStr s =>
      Ok (mkRow (display_text s) None (Some "blue") (favorite clipboard_item))
  | File, DStr s =>
      Ok (mkRow (display_text s) None (Some "green") (favorite clipboard_item))
  | Image, d => Ok (mkRow "Image" (Some d) None (favorite clipboard_item))
  | _, DPix _ => Raise TypeError
  end.

(** The actions that [show_item_context_menu] (lines 291-319) puts in the
    menu of a row, top down, by their labels. *)
Definition show_item_context_menu (clipboard_item : ClipboardItem)
    : result (list string) :=
  let favorite_action :=
    if favorite clipboard_item then "Unfavorite" else "Favorite" in
  match data_type clipboard_item, data clipboard_item with
  | Image, _ => Ok [favorite_action; "Delete"]
  | _, DStr s =>
      if (180 <? String.length s)%nat
      then Ok [favorite_action; "Delete"; "Save to File"]
      else Ok [favorite_action; "Delete"]
  | _, DPix _ => Raise TypeError          (* len(QPixmap) *)
  end.

Section SaveItem.

(** [os.path.abspath]. *)
Variable os_path_abspath : string → string.

(** [save_item_to_file] (lines 374-383).  [datetime_str] is what
    [QDateTime.currentDateTime().toString('yyyyMMdd_HHmmss')] returns, and
    [fs] maps the names of the files of the working directory to their
    contents.  The file is opened for writing before the payload is
    written. *)
Definition save_item_to_file (datetime_str : string)
    (clipboard_item : ClipboardItem) (fs : gmap string string)
    : gmap string string * result effect :=
  let filename := "qlip_save_" +:+ datetime_str +:+ ".txt" in
  match data clipboard_item with
  | DStr s =>
      (<[filename := s]> fs,
       Ok (openUrl_fromLocalFile (os_path_abspath filename)))
  | DPix _ => (<[filename := ""]> fs, Raise TypeError)
  end.

End SaveItem.


(** ** The history file and the life of the program *)

(** The program and the file it leaves behind between two runs. *)
Record world : Type := mkWorld {
  file : file_state;
  proc : state
}.

Section Run.

Variable QUrl_of : string → QUrl.

(** What can happen: the events the manager handles, [cleanup] (line 453,
    also reached from [closeEvent]) and the start of a new process. *)
Inductive step : world → world → Prop :=
  | step_clipboard w m :
      step w (mkWorld (file w) (on_clipboard_change QUrl_of m (proc w)))
  | step_drop w m :
      step w (mkWorld (file w) (dropEvent QUrl_of m (proc w)))
  | step_toggle_pause w :
      step w (mkWorld (file w) (toggle_pause (proc w)))
  | step_delete_all w reply_yes :
      step w (mkWorld (file w) (delete_all_items reply_yes (proc w)))
  | step_delete_item w row st' :
      delete_item row (proc w) = Ok st' →
      step w (mkWorld (file w) st')
  | step_toggle_favorite w row :
      step w (mkWorld (file w) (toggle_favorite_item row (proc w)))
  | step_cleanup w :
      step w (mkWorld (save_items_to_file (proc w)).1 (proc w))
  | step_restart w st' :
      ClipboardManager_init (file w) = Ok st' →
      step w (mkWorld (file w) st').

(** The first run finds no history file. *)
Definition first_run : world := mkWorld Absent process_start.

Inductive reachable : world → Prop :=
  | reachable_first : reachable first_run
  | reachable_step w w' : reachable w → step w w' → reachable w'.

End Run.

(** The objects of [self.items], in list order, and the objects shown by the
    rows of the widget, top down. *)
Definition view (st : state) : list ClipboardItem := deref st <$> items st.
Definition ordered_view (st : state) : list ClipboardItem :=
  deref st <$> list_widget st.

(** [x] may stand before [y] in a list sorted by [key]. *)
Definition key_le {A : Type} (key : A → bool * Z) (x y : A) : Prop :=
  tuple_lt (key y) (key x) = false.

(** A [QPixmap] payload carries the tag ['image']: under the other three
    tags the payload is a [str]. *)
Definition well_typed (it : ClipboardItem) : Prop :=
  match data it with
  | DStr _ => True
  | DPix _ => data_type it = Image
  end.

(** What holds of [self.items] between an append or a change of a flag and
    the call of [reorder_items] that follows it. *)
Record pre_inv (st : state) : Prop := mkPreInv {
  inv_valid : Forall (λ r, (r < length (heap st))%nat) (items st);
  inv_index : NoDup (index <$> view st);
  inv_below : Forall (λ it, index it < _counter st) (view st);
  inv_typed : Forall well_typed (view st);
  inv_dedup : NoDup (data <$> view st)
}.

(** What holds of the manager between two events. *)
Record st_inv (st : state) : Prop := mkStInv {
  inv_pre : pre_inv st;
  inv_widget : list_widget st = items st;
  inv_sorted : StronglySorted (key_le sort_key) (view st)
}.

(** What holds of a history file that the program wrote. *)
Definition file_ok (f : file_state) : Prop :=
  match f with
  | Absent => True
  | Unparsable => False
  | Parsed recs => NoDup (r_index <$> recs) ∧ NoDup (r_data <$> recs)
  | Unreadable => False
  | Json _ => False
  end.

(** The object that [from_dict] builds from a record. *)
Definition item_of_record (d : JRecord) : ClipboardItem :=
  mkItem (r_data_type d) (DStr (r_data d)) (r_favorite d) (r_index d).

(** The JSON object that [json.dump] writes for a dict with a [str] payload. *)
Definition str_of_data (d : Data) : string :=
  match d with
  | DStr s => s
  | DPix _ => ""
  end.

Definition record_of_dict (d : Dict) : JRecord :=
  mkJRecord (d_data_type d) (str_of_data (d_data d)) (d_favorite d) (d_index d).

(** Lines 445-448 as a function of the loaded indices. *)
Definition next_counter (idxs : list Z) : Z :=
  match idxs with
  | [] => 0
  | x :: l => py_max x l + 1
  end.

(** What holds of the program and its file together. *)
Definition world_inv (w : world) : Prop := file_ok (file w) ∧ st_inv (proc w).

(** Equality of payloads: strings by value, images by decoded content; a
    string and an image are never equal.  The tags play no part. *)
Definition payload_equal (a b : Data) : Prop :=
  match a, b with
  | DStr s, DStr t => s = t
  | DPix p, DPix q => toImage p = toImage q
  | _, _ => False
  end.

(** A run of clipboard notifications. *)
Definition on_clipboard_changes (QUrl_of : string → QUrl)
    (events : list QMimeData) (st : state) : state :=
  fold_left (λ s m, on_clipboard_change QUrl_of m s) events st.

(** A clipboard content from which [process_mime_data] takes exactly one
    payload. *)
Definition one_candidate (m : QMimeData) : Prop :=
  if hasText m then text m ≠ ""
  else if hasImage m then True
  else hasUrls m = true ∧
       ∃ u, urls m = [u] ∧ isLocalFile u = true ∧ toLocalFile u ≠ "".

(** The tag and the payload that [process_mime_data] takes from a clipboard
    content with one candidate. *)
Definition candidate (QUrl_of : string → QUrl) (m : QMimeData)
    : DataType * Data :=
  if hasText m then
    let '(dt, d) := classify_text QUrl_of (text m) in (dt, DStr d)
  else if hasImage m then (Image, DPix (fromImage (imageData m)))
  else match urls m with
       | u :: _ => (File, DStr (toLocalFile u))
       | [] => (File, DStr "")
       end.

(** Every reference held by [self.items] points to an object. *)
Definition heap_ok (st : state) : Prop :=
  Forall (λ r, (r < length (heap st))%nat) (items st).

(** [m] is the greatest element of [l]. *)
Definition is_max (m : Z) (l : list Z) : Prop :=
  m ∈ l ∧ ∀ i, i ∈ l → i ≤ m.

(** The outcome of [if not any(...): item = ClipboardItem(...);
    self.add_item_to_list(item)]. *)
Definition ingested (dt : DataType) (d : Data) (st st' : state) : Prop :=
  (d ∈ data <$> view st → st' = st) ∧
  (d ∉ data <$> view st →
   view st' = py_sort sort_key (view st ++ [mkItem dt d false (_counter st)]) ∧
   _counter st' = _counter st + 1).

(** ** Worked inputs *)

(** A stand-in for Qt's [QUrl(text)] on texts of the form [file:///path]. *)
Definition QUrl_file_scheme (t : string) : QUrl :=
  if String.prefix "file://" t
  then mkQUrl true (String.substring 7 (String.length t - 7) t)
  else mkQUrl false "".

Definition mime_text (t : string) : QMimeData :=
  mkMime true t false (mkQImage 0 0 []) false [].

Definition one_pixel : QImage := mkQImage 1 1 [255].

Definition mime_image : QMimeData :=
  mkMime false "" true one_pixel false [].

(** A copy from an application that offers both a picture and a caption. *)
Definition mime_text_and_image : QMimeData :=
  mkMime true "hello" true one_pixel false [].

(** The world after copying ["b"], a URL and a picture, and starring the
    URL. *)
Definition world_three_items : world :=
  mkWorld Absent
    (toggle_favorite_item 1
       (on_clipboard_changes QUrl_file_scheme
          [mime_text "b"; mime_text "http://a"; mime_image] process_start)).

(** A payload of two hundred characters. *)
Definition long_text : string :=
  String.concat "" (replicate 20 "0123456789").

(** A disk on which no path exists. *)
Definition empty_disk (path : string) : bool := false.

(** A history file as a previous run of the program could have left it. *)
Definition file_abc : list JRecord :=
  [mkJRecord Text "a" true 0; mkJRecord Url "http://b" false 2;
   mkJRecord File "/c" false 5].

(** A history file edited by hand so that two records share an index; no run
    of the program writes such a file. *)
Definition file_repeated_index : list JRecord :=
  [mkJRecord Text "a" false 0; mkJRecord Text "b" false 0].

(** A store that holds a text entry and a picture. *)
Definition store_text_and_image : state :=
  on_clipboard_changes QUrl_file_scheme [mime_text "x"; mime_image]
    process_start.

(** A store that holds a text entry and a file entry, the file starred. *)
Definition store_two_strings : state :=
  toggle_favorite_item 1
    (on_clipboard_changes QUrl_file_scheme
       [mime_text "b"; mime_text "/tmp/f"] process_start).

(** The dict and the item agree field by field. *)
Definition dict_of_item (it : ClipboardItem) (d : Dict) : Prop :=
  d_data_type d = data_type it ∧ d_data d = data it ∧
  d_favorite d = favorite it ∧ d_index d = index it.

(** [st'] is [st] with entries added: the old entries are all there, the heap
    is still sound, the pause flag is the same, and the counter has advanced
    by the number of entries added. *)
Definition grows (st st' : state) : Prop :=
  heap_ok st' ∧
  (∀ it, it ∈ view st → it ∈ view st') ∧
  is_paused st' = is_paused st ∧
  _counter st' - _counter st =
    Z.of_nat (length (view st')) - Z.of_nat (length (view st)) ∧
  0 ≤ _counter st' - _counter st.

(** The number of payloads that [process_mime_data] can take from a
    clipboard content. *)
Definition candidates_bound (m : QMimeData) : Z :=
  if hasText m then 1
  else if hasImage m then 1
  else if hasUrls m then Z.of_nat (length (urls m))
  else 0.

(** The item with its favorite flag flipped
    ([clipboard_item.favorite = not clipboard_item.favorite]). *)
Definition flip_favorite (it : ClipboardItem) : ClipboardItem :=
  mkItem (data_type it) (data it) (negb (favorite it)) (index it).

(** What [on_item_clicked] hands to the clipboard for an entry: the payload,
    by [setPixmap] under the tag ['image'] and by [setText] under the other
    tags. *)
Definition clipboard_request (it : ClipboardItem) : effect :=
  match data_type it, data it with
  | Image, DStr s => clipboard_setPixmap_str s
  | _, DStr s => clipboard_setText s
  | _, DPix p => clipboard_setPixmap p
  end.

(** The effect that puts the payload of an entry on the clipboard. *)
Definition clipboard_write (it : ClipboardItem) : effect :=
  match data it with
  | DStr s => clipboard_setText s
  | DPix p => clipboard_setPixmap p
  end.

(** The name of the file that [save_item_to_file] writes (line 377). *)
Definition export_filename (datetime_str : string) : string :=
  "qlip_save_" +:+ datetime_str +:+ ".txt".

(** The tag and the payload of an entry fit together the way
    [process_mime_data] pairs them: a pixmap under ['image']; under ['url'] a
    string that starts with [http://] or [https://]; under ['text'] a string
    that starts with none of [http://], [https://], [file://] and [/]; any
    string under ['file']. *)
Definition entry_ok (it : ClipboardItem) : Prop :=
  match data_type it, data it with
  | Image, DPix _ => True
  | Text, DStr s =>
      String.prefix "http://" s = false ∧ String.prefix "https://" s = false ∧
      String.prefix "file://" s = false ∧ String.prefix "/" s = false
  | Url, DStr s =>
      String.prefix "http://" s = true ∨ String.prefix "https://" s = true
  | File, DStr _ => True
  | _, _ => False
  end.

Definition file_entries_ok (f : file_state) : Prop :=
  match f with
  | Parsed recs => Forall (λ d, entry_ok (item_of_record d)) recs
  | _ => True
  end.

(** A JSON object that has the four keys. *)
Definition complete (e : json_elem) : bool :=
  match e with
  | JObject (Some _) (Some _) (Some _) (Some _) => true
  | _ => false
  end.

(** The JSON object that [json.dump] writes for a record. *)
Definition elem_of_record (d : JRecord) : json_elem :=
  JObject (Some (r_data_type d)) (Some (r_data d)) (Some (r_favorite d))
          (Some (r_index d)).

(** A history file that is unreadable or malformed: it cannot be opened, it
    is not JSON, it is a JSON value that cannot be iterated, or iterating it
    meets an element that is not an object with the four keys. *)
Definition malformed (f : file_state) : Prop :=
  match f with
  | Absent => False
  | Unparsable => True
  | Parsed _ => False
  | Unreadable => True
  | Json (JArray l) => Exists (λ e, complete e = false) l
  | Json (JDict keys) => keys ≠ []
  | Json (JString s) => s ≠ ""
  | Json JScalar => True
  end.

(** A history file whose second record lacks the key ['index']. *)
Definition file_missing_index : file_state :=
  Json (JArray [JObject (Some Text) (Some "a") (Some false) (Some 0);
                JObject (Some Text) (Some "b") (Some true) None]).

(** * Properties *)

(** ** Sorting *)

Section Sorting.

Context {A : Type} (key : A → bool * Z).

#[local] Abbreviation key_le := (key_le key).

Lemma tuple_lt_le_trans a b c :
  tuple_lt b a = false → tuple_lt c b = false → tuple_lt c a = false.
Proof.
  destruct a as [[] x], b as [[] y], c as [[] z]; unfold tuple_lt; simpl;
    repeat case_bool_decide; try done; lia.
Qed.

#[local] Instance key_le_trans : Transitive key_le.
Proof. intros x y z. unfold key_le. apply tuple_lt_le_trans. Qed.

Lemma key_le_total x y : key_le x y ∨ key_le y x.
Proof.
  unfold key_le. destruct (tuple_lt (key y) (key x)) eqn:E; [|by left].
  right. destruct (tuple_lt (key x) (key y)) eqn:E'; [|done].
  destruct (key x) as [[] a], (key y) as [[] b]; unfold tuple_lt in *;
    simpl in *; repeat case_bool_decide; try done; lia.
Qed.

Lemma insert_sorted_perm x l : insert_sorted key x l ≡ₚ x :: l.
Proof.
  induction l as [|y l IH]; simpl; [done|].
  destruct (tuple_lt (key y) (key x)); [|done].
  rewrite IH. apply Permutation_swap.
Qed.

Lemma py_sort_perm l : py_sort key l ≡ₚ l.
Proof.
  induction l as [|x l IH]; simpl; [done|].
  rewrite insert_sorted_perm. by rewrite IH.
Qed.

Lemma insert_sorted_sorted x l :
  StronglySorted key_le l → StronglySorted key_le (insert_sorted key x l).
Proof.
  induction l as [|y l IH]; simpl; intros Hs.
  - repeat constructor.
  - apply StronglySorted_cons in Hs as [Hy Hl].
    destruct (tuple_lt (key y) (key x)) eqn:E.
    + apply StronglySorted_cons. split; [|by apply IH].
      rewrite insert_sorted_perm. constructor; [|done].
      destruct (key_le_total y x) as [H|H]; [done|].
      unfold key_le in H. congruence.
    + assert (key_le x y) by done.
      apply StronglySorted_cons. split.
      * constructor; [done|]. eapply Forall_impl; [exact Hy|].
        intros z Hz. by etrans.
      * by apply StronglySorted_cons.
Qed.

Lemma py_sort_sorted l : StronglySorted key_le (py_sort key l).
Proof.
  induction l as [|x l IH]; simpl; [constructor|].
  by apply insert_sorted_sorted.
Qed.

(** A sorted list is left as it is. *)
Lemma py_sort_id l : StronglySorted key_le l → py_sort key l = l.
Proof.
  induction l as [|x l IH]; simpl; [done|]. intros Hs.
  apply StronglySorted_cons in Hs as [Hx Hl]. rewrite IH by done.
  destruct l as [|y l']; simpl; [done|].
  apply Forall_cons in Hx as [Hxy _]. unfold key_le in Hxy. by rewrite Hxy.
Qed.

End Sorting.

Lemma py_sort_fmap {A B : Type} (f : A → B) (key : B → bool * Z) (l : list A) :
  py_sort key (f <$> l) = f <$> py_sort (key ∘ f) l.
Proof.
  induction l as [|x l IH]; [done|].
  change (insert_sorted key (f x) (py_sort key (f <$> l)) =
          f <$> insert_sorted (key ∘ f) x (py_sort (key ∘ f) l)).
  rewrite IH. generalize (py_sort (key ∘ f) l). intros m.
  induction m as [|y m IHm]; [done|]. cbn.
  destruct (tuple_lt (key (f y)) (key (f x))); cbn; [|done].
  f_equal. exact IHm.
Qed.

(** ** The heap *)

Lemma view_reorder st : view (reorder_items st) = py_sort sort_key (view st).
Proof.
  unfold view, reorder_items. simpl.
  by rewrite py_sort_fmap.
Qed.

Lemma items_reorder st :
  items (reorder_items st) = py_sort (λ r, sort_key (deref st r)) (items st).
Proof. done. Qed.

Lemma reorder_inv st : pre_inv st → st_inv (reorder_items st).
Proof.
  intros [Hv Hi Hb Ht Hd]. split; [split|done|].
  - rewrite items_reorder. simpl. by rewrite py_sort_perm.
  - by rewrite view_reorder, py_sort_perm.
  - by rewrite view_reorder, py_sort_perm.
  - by rewrite view_reorder, py_sort_perm.
  - by rewrite view_reorder, py_sort_perm.
  - rewrite view_reorder. apply py_sort_sorted.
Qed.

(** The view after [item = ClipboardItem(...); self.items.append(item)]. *)
Lemma view_append dt d fav st :
  Forall (λ r, (r < length (heap st))%nat) (items st) →
  let '(r, st1) := ClipboardItem_init dt d fav st in
  view (set_items (items st1 ++ [r]) st1) =
    view st ++ [mkItem dt d fav (_counter st)].
Proof.
  intros Hv. unfold view, deref. simpl. rewrite fmap_app. f_equal.
  - apply list_fmap_ext. intros i r Hr.
    apply lookup_total_app_l. rewrite Forall_forall in Hv.
    apply Hv. by eapply list_elem_of_lookup_2.
  - simpl. by rewrite list_lookup_total_middle.
Qed.

Lemma append_pre_inv dt d st :
  st_inv st →
  d ∉ data <$> view st →
  well_typed (mkItem dt d false (_counter st)) →
  let '(r, st1) := ClipboardItem_init dt d false st in
  pre_inv (set_items (items st1 ++ [r]) st1).
Proof.
  intros [[Hv Hi Hb Ht Hd] Hw Hs] Hnew Hty.
  pose proof (view_append dt d false st Hv) as Hview.
  unfold ClipboardItem_init in *. split; rewrite ?Hview.
  - simpl. rewrite length_app. simpl. apply Forall_app. split.
    + eapply Forall_impl; [exact Hv|]. simpl. lia.
    + constructor; [lia|constructor].
  - rewrite fmap_app. apply NoDup_app. split_and!; [done| |].
    + intros x Hx. simpl. rewrite list_elem_of_singleton. intros ->.
      apply list_elem_of_fmap in Hx as (it & Heq & Hit).
      rewrite Forall_forall in Hb. specialize (Hb it Hit). lia.
    + simpl. apply NoDup_singleton.
  - simpl. apply Forall_app. split.
    + eapply Forall_impl; [exact Hb|]. simpl. lia.
    + constructor; [simpl; lia|constructor].
  - apply Forall_app. split; [done|]. by constructor.
  - rewrite fmap_app. apply NoDup_app. split_and!; [done| |].
    + intros x Hx. simpl. rewrite list_elem_of_singleton. by intros ->.
    + simpl. apply NoDup_singleton.
Qed.

(** [item = ClipboardItem(...); self.add_item_to_list(item)] for a payload
    that no item holds. *)
Lemma ingest_inv dt d st :
  st_inv st →
  d ∉ data <$> view st →
  well_typed (mkItem dt d false (_counter st)) →
  let '(r, st1) := ClipboardItem_init dt d false st in
  st_inv (add_item_to_list r st1).
Proof.
  intros Hinv Hnew Hty.
  pose proof (append_pre_inv dt d st Hinv Hnew Hty) as H.
  unfold ClipboardItem_init, add_item_to_list in *.
  by apply reorder_inv.
Qed.

Lemma ingest_view dt d st :
  Forall (λ r, (r < length (heap st))%nat) (items st) →
  let '(r, st1) := ClipboardItem_init dt d false st in
  view (add_item_to_list r st1) =
    py_sort sort_key (view st ++ [mkItem dt d false (_counter st)]).
Proof.
  intros Hv. pose proof (view_append dt d false st Hv) as H.
  unfold ClipboardItem_init, add_item_to_list in *.
  by rewrite view_reorder, H.
Qed.

(** ** Ingestion keeps the invariant *)

Lemma existsb_false {A : Type} (f : A → bool) (l : list A) :
  existsb f l = false ↔ ∀ x, x ∈ l → f x = false.
Proof.
  induction l as [|y l IH]; simpl.
  - split; [|done]. intros _ x Hx. by apply elem_of_nil in Hx.
  - rewrite orb_false_iff, IH. split.
    + intros [Hy Hl] x [->|Hx]%elem_of_cons; auto.
    + intros H. split; [apply H; left|intros x Hx; apply H; by right].
Qed.

Lemma no_equal_str st s :
  existsb (λ r, data_eq_str (data (deref st r)) s) (items st) = false →
  DStr s ∉ data <$> view st.
Proof.
  rewrite existsb_false. intros H Hin.
  apply list_elem_of_fmap in Hin as (it & Heq & Hit).
  apply list_elem_of_fmap in Hit as (r & -> & Hr).
  specialize (H r Hr). rewrite <- Heq in H. simpl in H.
  by rewrite bool_decide_eq_true_2 in H.
Qed.

Lemma no_equal_image st pixmap :
  existsb (λ r, same_image (data (deref st r)) pixmap) (items st) = false →
  DPix pixmap ∉ data <$> view st.
Proof.
  rewrite existsb_false. intros H Hin.
  apply list_elem_of_fmap in Hin as (it & Heq & Hit).
  apply list_elem_of_fmap in Hit as (r & -> & Hr).
  specialize (H r Hr). rewrite <- Heq in H. simpl in H.
  by rewrite bool_decide_eq_true_2 in H.
Qed.

Section Ingest.

Variable QUrl_of : string → QUrl.

Lemma classify_text_not_image t : (classify_text QUrl_of t).1 ≠ Image.
Proof.
  unfold classify_text.
  repeat match goal with |- context [if ?b then _ else _] => destruct b end;
    done.
Qed.

Lemma process_url_inv st u : st_inv st → st_inv (process_url st u).
Proof.
  intros Hinv. unfold process_url.
  destruct (isLocalFile u); [|done].
  case_bool_decide; [|done].
  destruct (existsb _ _) eqn:E; simpl; [done|].
  apply no_equal_str in E.
  by apply (ingest_inv File (DStr (toLocalFile u)) st Hinv E).
Qed.

Lemma process_urls_inv l st : st_inv st → st_inv (fold_left process_url l st).
Proof.
  revert st. induction l as [|u l IH]; simpl; [done|].
  intros st Hinv. by apply IH, process_url_inv.
Qed.

Lemma process_mime_data_inv m st :
  st_inv st → st_inv (process_mime_data QUrl_of m st).
Proof.
  intros Hinv. unfold process_mime_data.
  destruct (hasText m).
  { case_bool_decide; [|done].
    pose proof (classify_text_not_image (text m)) as Hty.
    destruct (classify_text QUrl_of (text m)) as [dt d]. simpl in Hty.
    destruct (existsb _ _) eqn:E; simpl; [done|].
    apply no_equal_str in E.
    apply (ingest_inv dt (DStr d) st Hinv E). by destruct dt. }
  destruct (hasImage m).
  { destruct (existsb _ _) eqn:E; simpl; [done|].
    apply no_equal_image in E.
    by apply (ingest_inv Image (DPix (fromImage (imageData m))) st Hinv E). }
  destruct (hasUrls m); [|done].
  by apply process_urls_inv.
Qed.

Lemma on_clipboard_change_inv m st :
  st_inv st → st_inv (on_clipboard_change QUrl_of m st).
Proof.
  intros Hinv. unfold on_clipboard_change.
  destruct (is_paused st); [done|]. by apply process_mime_data_inv.
Qed.

End Ingest.

(** ** The user's actions keep the invariant *)

Lemma st_inv_frame st st' :
  heap st' = heap st → items st' = items st →
  list_widget st' = list_widget st → _counter st' = _counter st →
  st_inv st → st_inv st'.
Proof.
  intros Hh Hi Hw Hc [[Hv Hx Hb Ht Hd] Hlw Hs].
  assert (view st' = view st) as Hview.
  { unfold view, deref. by rewrite Hh, Hi. }
  split; [split|..]; rewrite ?Hview, ?Hh, ?Hi, ?Hw, ?Hc; done.
Qed.

Lemma toggle_pause_inv st : st_inv st → st_inv (toggle_pause st).
Proof. by apply st_inv_frame. Qed.

Lemma process_start_inv : st_inv process_start.
Proof. repeat split; simpl; constructor. Qed.

Lemma delete_all_items_inv reply_yes st :
  st_inv st → st_inv (delete_all_items reply_yes st).
Proof.
  intros Hinv. destruct reply_yes; simpl; [|done].
  repeat split; simpl; constructor.
Qed.

Lemma list_remove_delete (l : list ref) i x :
  NoDup l → l !! i = Some x → list_remove x l = Ok (delete i l).
Proof.
  revert i. induction l as [|y l IH]; intros i Hnd Hi; [done|].
  apply NoDup_cons in Hnd as [Hy Hnd]. simpl.
  destruct i as [|i]; simpl in *.
  - injection Hi as ->. by rewrite bool_decide_eq_true_2.
  - rewrite bool_decide_eq_false_2.
    + by rewrite (IH i).
    + intros ->. apply Hy. by eapply list_elem_of_lookup_2.
Qed.

Lemma StronglySorted_delete {A : Type} (R : relation A) (l : list A) i :
  StronglySorted R l → StronglySorted R (delete i l).
Proof.
  revert i. induction l as [|x l IH]; intros i Hs; [done|].
  apply StronglySorted_cons in Hs as [Hx Hl].
  destruct i as [|i]; simpl; [done|].
  apply StronglySorted_cons. split; [by apply Forall_delete|by apply IH].
Qed.

Lemma pre_inv_NoDup_items st : pre_inv st → NoDup (items st).
Proof.
  intros [_ Hi _ _ _]. unfold view in Hi.
  by apply NoDup_fmap_1, NoDup_fmap_1 in Hi.
Qed.

Lemma delete_item_ok row st :
  st_inv st →
  delete_item row st =
    Ok (match list_widget st !! row with
        | None => st
        | Some _ => set_list_widget (delete row (list_widget st))
                      (set_items (delete row (items st)) st)
        end).
Proof.
  intros [Hpre Hw Hs]. unfold delete_item.
  destruct (list_widget st !! row) as [r|] eqn:E; [|done].
  rewrite Hw in E.
  by rewrite (list_remove_delete _ row r (pre_inv_NoDup_items st Hpre) E).
Qed.

Lemma delete_item_inv row st st' :
  st_inv st → delete_item row st = Ok st' → st_inv st'.
Proof.
  intros Hinv. rewrite (delete_item_ok row st Hinv). intros [= <-].
  destruct (list_widget st !! row) as [r|] eqn:E; [|done].
  destruct Hinv as [[Hv Hx Hb Ht Hd] Hw Hs].
  assert (view (set_list_widget (delete row (list_widget st))
                  (set_items (delete row (items st)) st))
          = delete row (view st)) as Hview.
  { unfold view. simpl. apply list_fmap_delete. }
  split; [split|..]; rewrite ?Hview.
  - simpl. by apply Forall_delete.
  - rewrite list_fmap_delete.
    exact (sublist_NoDup _ _ Hx (sublist_delete _ _)).
  - simpl. by apply Forall_delete.
  - by apply Forall_delete.
  - rewrite list_fmap_delete.
    exact (sublist_NoDup _ _ Hd (sublist_delete _ _)).
  - simpl. by rewrite Hw.
  - by apply StronglySorted_delete.
Qed.

Lemma deref_set_favorite st r b r' :
  let obj := deref st r in
  let st' := set_heap (<[r := mkItem (data_type obj) (data obj) b
                                     (index obj)]> (heap st)) st in
  data_type (deref st' r') = data_type (deref st r') ∧
  data (deref st' r') = data (deref st r') ∧
  index (deref st' r') = index (deref st r').
Proof.
  unfold deref. simpl. rewrite list_lookup_total_insert.
  case_decide as H; [|done]. by destruct H as [-> _].
Qed.

Lemma toggle_favorite_item_inv row st :
  st_inv st → st_inv (toggle_favorite_item row st).
Proof.
  intros Hinv. unfold toggle_favorite_item.
  destruct (list_widget st !! row) as [r|]; [|done].
  apply reorder_inv. destruct Hinv as [[Hv Hx Hb Ht Hd] _ _].
  pose proof (deref_set_favorite st r (negb (favorite (deref st r)))) as Hf.
  simpl in Hf. set (st' := set_heap _ st) in *.
  assert (index <$> view st' = index <$> view st) as Hidx.
  { unfold view. rewrite <- !list_fmap_compose.
    apply list_fmap_ext. intros i x _. apply Hf. }
  assert (data <$> view st' = data <$> view st) as Hdat.
  { unfold view. rewrite <- !list_fmap_compose.
    apply list_fmap_ext. intros i x _. apply Hf. }
  split.
  - unfold st'. simpl. by rewrite length_insert.
  - by rewrite Hidx.
  - unfold view in *. rewrite Forall_fmap in *.
    eapply Forall_impl; [exact Hb|]. intros x. simpl.
    destruct (Hf x) as (_ & _ & ->). done.
  - unfold view in *. rewrite Forall_fmap in *.
    eapply Forall_impl; [exact Ht|]. intros x. unfold well_typed. simpl.
    destruct (Hf x) as (-> & -> & _). done.
  - by rewrite Hdat.
Qed.

(** ** Saving and loading keep the invariant *)

Lemma json_dump_ok l :
  Forall (λ d, ∃ s, d_data d = DStr s) l →
  json_dump l = Ok (record_of_dict <$> l).
Proof.
  induction 1 as [|d l [s Hs] Hl IH]; simpl; [done|].
  rewrite Hs, IH. unfold record_of_dict. by rewrite Hs.
Qed.

Lemma typed_not_image_str it :
  well_typed it → data_type it ≠ Image → ∃ s, data it = DStr s.
Proof.
  unfold well_typed. destruct (data it); [eauto|]. by intros ->.
Qed.

Lemma encode_typed st :
  Forall well_typed (view st) →
  Forall (λ d, ∃ s, d_data d = DStr s) (encode st).
Proof.
  intros Ht. unfold encode. fold (view st).
  apply Forall_fmap, Forall_forall. intros it [Hni Hit]%list_elem_of_filter.
  simpl. apply typed_not_image_str; [|done].
  rewrite Forall_forall in Ht. by apply Ht.
Qed.

Lemma save_items_to_file_ok st :
  Forall well_typed (view st) →
  save_items_to_file st = (Parsed (record_of_dict <$> encode st), None).
Proof.
  intros Ht. unfold save_items_to_file.
  by rewrite (json_dump_ok _ (encode_typed st Ht)).
Qed.

Lemma save_items_to_file_inv st :
  st_inv st → file_ok (save_items_to_file st).1.
Proof.
  intros [[Hv Hx Hb Ht Hd] _ _]. rewrite (save_items_to_file_ok st Ht).
  simpl. unfold encode. fold (view st).
  set (l := filter (λ it, data_type it ≠ Image) (view st)).
  assert (l `sublist_of` view st) as Hsub by apply sublist_filter.
  assert (Forall (λ it, data_type it ≠ Image ∧ ∃ s, data it = DStr s) l) as Hl.
  { apply Forall_forall. intros it [Hni Hit]%list_elem_of_filter.
    split; [done|]. apply typed_not_image_str; [|done].
    rewrite Forall_forall in Ht. by apply Ht. }
  split_and!.
  - rewrite <- !list_fmap_compose.
    apply (sublist_NoDup _ (index <$> view st)); [done|].
    by apply fmap_sublist.
  - apply (NoDup_fmap_1 DStr). rewrite <- !list_fmap_compose.
    assert (DStr ∘ r_data ∘ record_of_dict ∘ to_dict <$> l = data <$> l)
      as ->.
    { apply Forall_fmap_ext. eapply Forall_impl; [exact Hl|].
      intros it [_ [s Hs]]. simpl. by rewrite Hs. }
    apply (sublist_NoDup _ (data <$> view st)); [done|].
    by apply fmap_sublist.
Qed.

Lemma py_max_ge l : ∀ x y, y ∈ x :: l → y ≤ py_max x l.
Proof.
  unfold py_max. induction l as [|z l IH]; simpl; intros x y Hy.
  - apply list_elem_of_singleton in Hy. lia.
  - apply elem_of_cons in Hy as [->|Hy].
    + etrans; [|apply (IH (Z.max x z)); left]. lia.
    + apply elem_of_cons in Hy as [->|Hy].
      * etrans; [|apply (IH (Z.max x z)); left]. lia.
      * apply IH. by right.
Qed.

Lemma py_max_in l : ∀ x, py_max x l ∈ x :: l.
Proof.
  unfold py_max. induction l as [|z l IH]; simpl; intros x; [left|].
  pose proof (IH (Z.max x z)) as H. apply elem_of_cons in H as [H|H].
  - rewrite H. destruct (Z.max_spec x z) as [[_ E]|[_ E]]; rewrite E.
    + right; left.
    + left.
  - right; by right.
Qed.

Lemma load_one_spec st d :
  Forall (λ r, (r < length (heap st))%nat) (items st) →
  let st' := load_one st d in
  view st' = view st ++ [item_of_record d] ∧
  Forall (λ r, (r < length (heap st'))%nat) (items st') ∧
  is_paused st' = is_paused st ∧
  list_widget st' = list_widget st.
Proof.
  intros Hv. unfold load_one, from_dict, ClipboardItem_init. simpl.
  split_and!; [|simpl|done..].
  - unfold view, deref. simpl. rewrite fmap_app. f_equal.
    + apply list_fmap_ext. intros i r Hr.
      rewrite Forall_forall in Hv.
      assert (r < length (heap st))%nat as Hlt.
      { apply Hv. by eapply list_elem_of_lookup_2. }
      rewrite list_lookup_total_insert_ne by lia.
      by apply lookup_total_app_l.
    + simpl. rewrite list_lookup_total_insert_eq.
      * by rewrite list_lookup_total_middle.
      * rewrite length_app. simpl. lia.
  - rewrite length_insert, length_app. simpl. apply Forall_app. split.
    + eapply Forall_impl; [exact Hv|]. simpl. lia.
    + constructor; [lia|constructor].
Qed.

Lemma load_fold_spec recs : ∀ st,
  Forall (λ r, (r < length (heap st))%nat) (items st) →
  let st' := fold_left load_one recs st in
  view st' = view st ++ (item_of_record <$> recs) ∧
  Forall (λ r, (r < length (heap st'))%nat) (items st') ∧
  is_paused st' = is_paused st ∧
  list_widget st' = list_widget st.
Proof.
  induction recs as [|d recs IH]; simpl; intros st Hv.
  - by rewrite app_nil_r.
  - destruct (load_one_spec st d Hv) as (Hview & Hv' & Hp & Hw).
    destruct (IH (load_one st d) Hv') as (Hview2 & Hv2 & Hp2 & Hw2).
    rewrite Hview2, Hview, Hp2, Hp, Hw2, Hw, <- app_assoc. done.
Qed.

(** What a parsable history file is loaded to. *)
Lemma load_parsed_spec recs st :
  ∃ st', load_items_from_file (Parsed recs) st = Ok st' ∧
    view st' = py_sort sort_key (item_of_record <$> recs) ∧
    _counter st' = next_counter (r_index <$> recs) ∧
    list_widget st' = items st' ∧
    Forall (λ r, (r < length (heap st'))%nat) (items st') ∧
    is_paused st' = is_paused st.
Proof.
  eexists. split; [done|].
  destruct (load_fold_spec recs (set_items [] st)) as (Hview & Hv & Hp & Hw);
    [constructor|].
  set (st1 := fold_left load_one recs (set_items [] st)) in *.
  simpl in Hview.
  set (st2 := match items st1 with [] => _ | _ => _ end).
  assert (heap st2 = heap st1 ∧ items st2 = items st1 ∧
          is_paused st2 = is_paused st1 ∧ view st2 = view st1)
    as (Hh2 & Hi2 & Hp2 & Hview2).
  { unfold st2. destruct (items st1) eqn:E; simpl; rewrite ?E; done. }
  split_and!.
  - by rewrite view_reorder, Hview2, Hview.
  - assert (index <$> view st1 = r_index <$> recs) as Hidx.
    { rewrite Hview, <- list_fmap_compose. done. }
    rewrite <- Hidx. unfold st2, view.
    destruct (items st1) as [|r rs]; [done|]. simpl.
    by rewrite list_fmap_compose.
  - done.
  - rewrite items_reorder, py_sort_perm. simpl. by rewrite Hh2, Hi2.
  - simpl. by rewrite Hp2.
Qed.

Lemma next_counter_above idxs : Forall (λ i, i < next_counter idxs) idxs.
Proof.
  destruct idxs as [|x l]; [constructor|]. simpl.
  apply Forall_forall. intros y Hy.
  pose proof (py_max_ge l x y Hy). lia.
Qed.

Lemma load_parsed_inv recs st st' :
  file_ok (Parsed recs) →
  load_items_from_file (Parsed recs) st = Ok st' → st_inv st'.
Proof.
  intros (Hi & Hd) Hload.
  destruct (load_parsed_spec recs st) as (st2 & E & Hview & Hc & Hw & Hv & _).
  rewrite E in Hload. injection Hload as <-.
  split; [split|done|]; rewrite ?Hview, ?py_sort_perm, ?Hc.
  - done.
  - by rewrite <- list_fmap_compose.
  - apply Forall_fmap. simpl.
    pose proof (next_counter_above (r_index <$> recs)) as H.
    by apply Forall_fmap in H.
  - apply Forall_fmap, Forall_forall. by intros d _.
  - rewrite <- list_fmap_compose.
    change (data ∘ item_of_record) with (DStr ∘ r_data).
    rewrite list_fmap_compose. apply (NoDup_fmap_2 DStr). done.
  - apply py_sort_sorted.
Qed.

Lemma ClipboardManager_init_inv f st' :
  file_ok f → ClipboardManager_init f = Ok st' → st_inv st'.
Proof.
  intros Hf. unfold ClipboardManager_init. destruct f as [| |recs| |j].
  - intros [= <-]. apply process_start_inv.
  - done.
  - by apply load_parsed_inv.
  - done.
  - done.
Qed.

(** ** Every reachable world satisfies the invariant *)

Lemma step_inv QUrl_of w w' : world_inv w → step QUrl_of w w' → world_inv w'.
Proof.
  intros [Hf Hs] Hstep. destruct Hstep; split; simpl; try done.
  - by apply on_clipboard_change_inv.
  - by apply process_mime_data_inv.
  - by apply toggle_pause_inv.
  - by apply delete_all_items_inv.
  - by eapply delete_item_inv.
  - by apply toggle_favorite_item_inv.
  - by apply save_items_to_file_inv.
  - by eapply ClipboardManager_init_inv.
Qed.

Lemma reachable_inv QUrl_of w : reachable QUrl_of w → world_inv w.
Proof.
  induction 1 as [|w w' _ IH Hstep].
  - split; [done|apply process_start_inv].
  - by eapply step_inv.
Qed.

(** ** The claims *)

Lemma StronglySorted_lookup {A : Type} (R : relation A) (l : list A) i j a b :
  StronglySorted R l → (i < j)%nat →
  l !! i = Some a → l !! j = Some b → R a b.
Proof.
  intros Hs. revert i j. induction Hs as [|x l Hs IH Hx]; intros i j Hij Hi Hj.
  - done.
  - destruct j as [|j]; [lia|]. destruct i as [|i]; simpl in *.
    + injection Hi as <-. rewrite Forall_forall in Hx.
      apply Hx. by eapply list_elem_of_lookup_2.
    + apply (IH i j); [lia|done..].
Qed.

Lemma payload_equal_eq a b : payload_equal a b ↔ a = b.
Proof.
  destruct a as [s|[p]], b as [t|[q]]; simpl; split; try done;
    try congruence.
Qed.

Lemma on_clipboard_changes_inv QUrl_of events st :
  st_inv st → st_inv (on_clipboard_changes QUrl_of events st).
Proof.
  unfold on_clipboard_changes. revert st.
  induction events as [|m events IH]; simpl; [done|].
  intros st Hinv. by apply IH, on_clipboard_change_inv.
Qed.

Lemma on_clipboard_changes_reachable QUrl_of events w :
  reachable QUrl_of w →
  reachable QUrl_of
    (mkWorld (file w) (on_clipboard_changes QUrl_of events (proc w))).
Proof.
  unfold on_clipboard_changes. revert w.
  induction events as [|m events IH]; simpl; intros w Hw.
  - by destruct w.
  - apply (IH (mkWorld (file w) (on_clipboard_change QUrl_of m (proc w)))).
    eapply reachable_step; [exact Hw|constructor].
Qed.

(** C1 (dedup).  After any run of clipboard notifications handled from the
    empty, unpaused store of a fresh process, no two entries of the store
    hold equal payloads: strings are compared by value, images by decoded
    content, and the tags of the two entries are not looked at. *)
Theorem C1_dedup (QUrl_of : string → QUrl) (events : list QMimeData) :
  let st := on_clipboard_changes QUrl_of events process_start in
  ∀ i j a b, i ≠ j →
    view st !! i = Some a → view st !! j = Some b →
    ¬ payload_equal (data a) (data b).
Proof.
  intros st i j a b Hij Ha Hb Heq. apply payload_equal_eq in Heq.
  assert (st_inv st) as [[_ _ _ _ Hd] _ _].
  { apply on_clipboard_changes_inv, process_start_inv. }
  apply Hij. eapply (NoDup_lookup _ i j (data a)); [exact Hd|..].
  - by rewrite list_lookup_fmap, Ha.
  - by rewrite list_lookup_fmap, Hb, Heq.
Qed.

Lemma C1_dedup_witness :
  let st := on_clipboard_changes QUrl_file_scheme
              [mime_text "b"; mime_image; mime_text "b"; mime_image]
              process_start in
  view st !! 0%nat = Some (mkItem Text (DStr "b") false 0) ∧
  view st !! 1%nat = Some (mkItem Image (DPix (fromImage one_pixel)) false 1) ∧
  length (view st) = 2%nat ∧
  ¬ payload_equal (DStr "b") (DPix (fromImage one_pixel)).
Proof.
  split_and!; [reflexivity..|].
  apply (C1_dedup QUrl_file_scheme
           [mime_text "b"; mime_image; mime_text "b"; mime_image]
           0%nat 1%nat (mkItem Text (DStr "b") false 0)
           (mkItem Image (DPix (fromImage one_pixel)) false 1));
    [lia|reflexivity..].
Defined.

(** C3 (display order).  In every reachable world the rows of the widget show
    every favorite before every non-favorite, an earlier row of the same
    favorite status has a strictly smaller index, and the rows are the sort
    of the current items. *)
Theorem C3_display_order (QUrl_of : string → QUrl) (w : world) :
  reachable QUrl_of w →
  let rows := ordered_view (proc w) in
  (∀ i j a b, (i < j)%nat → rows !! i = Some a → rows !! j = Some b →
     (favorite b = true → favorite a = true) ∧
     (favorite a = favorite b → index a < index b)) ∧
  rows = py_sort sort_key (view (proc w)).
Proof.
  intros Hr rows. apply reachable_inv in Hr as [_ [[_ Hx _ _ _] Hw Hs]].
  assert (rows = view (proc w)) as Hrows.
  { unfold rows, ordered_view, view. by rewrite Hw. }
  rewrite Hrows. split; [|by rewrite py_sort_id].
  intros i j a b Hij Ha Hb.
  pose proof (StronglySorted_lookup _ _ i j a b Hs Hij Ha Hb) as Hle.
  assert (index a ≠ index b) as Hne.
  { intros Heq. assert (i = j); [|lia].
    eapply (NoDup_lookup _ i j (index a)); [exact Hx|..].
    - by rewrite list_lookup_fmap, Ha.
    - by rewrite list_lookup_fmap, Hb, Heq. }
  unfold key_le, sort_key, tuple_lt in Hle. simpl in Hle.
  destruct (favorite a), (favorite b); simpl in Hle;
    repeat case_bool_decide; try done; split; try done; intros _; lia.
Qed.

Lemma world_three_items_reachable :
  reachable QUrl_file_scheme world_three_items.
Proof.
  pose (w := mkWorld Absent
    (on_clipboard_changes QUrl_file_scheme
       [mime_text "b"; mime_text "http://a"; mime_image] process_start)).
  apply (reachable_step _ w).
  - apply (on_clipboard_changes_reachable QUrl_file_scheme _ first_run).
    apply reachable_first.
  - apply (step_toggle_favorite _ w 1%nat).
Defined.

Lemma C3_display_order_witness :
  let rows := ordered_view (proc world_three_items) in
  (∀ i j a b, (i < j)%nat → rows !! i = Some a → rows !! j = Some b →
     (favorite b = true → favorite a = true) ∧
     (favorite a = favorite b → index a < index b)) ∧
  rows = py_sort sort_key (view (proc world_three_items)).
Proof.
  apply (C3_display_order QUrl_file_scheme world_three_items).
  apply world_three_items_reachable.
Defined.

(** The strictness in C3 rests on the history file being one that the program
    wrote: a file edited by hand to repeat an index is loaded as it is, and
    the two rows then share that index. *)
Remark hand_edited_file_repeats_index :
  ∃ st, ClipboardManager_init (Parsed file_repeated_index) = Ok st ∧
        index <$> ordered_view st = [0; 0] ∧
        ¬ file_ok (Parsed file_repeated_index).
Proof.
  eexists. split_and!; [reflexivity..|].
  intros (Hnd & _). by apply NoDup_cons in Hnd as [Hnd _]; apply Hnd; left.
Qed.

(** C7 (pause gating).  While [is_paused] holds, any run of clipboard
    notifications, whatever the clipboard contains, leaves the whole state as
    it is: heap, items, widget rows, pause flag and counter. *)
Theorem C7_paused_frame (QUrl_of : string → QUrl) (events : list QMimeData)
    (st : state) :
  is_paused st = true →
  on_clipboard_changes QUrl_of events st = st.
Proof.
  intros Hp. unfold on_clipboard_changes.
  induction events as [|m events IH]; simpl; [done|].
  unfold on_clipboard_change at 2. by rewrite Hp.
Qed.

Lemma C7_paused_frame_witness :
  on_clipboard_changes QUrl_file_scheme
    [mime_text "x"; mime_image; mime_text_and_image]
    (toggle_pause (proc world_three_items))
  = toggle_pause (proc world_three_items).
Proof.
  apply (C7_paused_frame QUrl_file_scheme). reflexivity.
Defined.

(** *** What one candidate does to the store *)

Lemma existsb_str_true st s :
  existsb (λ r, data_eq_str (data (deref st r)) s) (items st) = true →
  DStr s ∈ data <$> view st.
Proof.
  intros (r & Hr & Heq)%existsb_exists. apply list_elem_of_In in Hr.
  apply list_elem_of_fmap. exists (deref st r). split.
  - destruct (data (deref st r)); simpl in Heq; [|done].
    by apply bool_decide_eq_true in Heq as ->.
  - by apply list_elem_of_fmap_2.
Qed.

Lemma existsb_image_true st pixmap :
  existsb (λ r, same_image (data (deref st r)) pixmap) (items st) = true →
  DPix pixmap ∈ data <$> view st.
Proof.
  intros (r & Hr & Heq)%existsb_exists. apply list_elem_of_In in Hr.
  apply list_elem_of_fmap. exists (deref st r). split.
  - destruct (data (deref st r)) as [|[q]]; simpl in Heq; [done|].
    apply bool_decide_eq_true in Heq. destruct pixmap. simpl in Heq.
    by rewrite Heq.
  - by apply list_elem_of_fmap_2.
Qed.

Lemma ingest_spec dt d st :
  heap_ok st →
  let '(r, st1) := ClipboardItem_init dt d false st in
  view (add_item_to_list r st1) =
    py_sort sort_key (view st ++ [mkItem dt d false (_counter st)]) ∧
  _counter (add_item_to_list r st1) = _counter st + 1.
Proof.
  intros Hv. pose proof (ingest_view dt d st Hv) as H.
  unfold ClipboardItem_init in *. by split.
Qed.

Lemma process_url_ingested st u :
  heap_ok st → isLocalFile u = true → toLocalFile u ≠ "" →
  ingested File (DStr (toLocalFile u)) st (process_url st u).
Proof.
  intros Hv Hl Hp. unfold process_url. rewrite Hl.
  rewrite bool_decide_eq_true_2 by done.
  destruct (existsb _ _) eqn:E; simpl.
  - apply existsb_str_true in E. by split.
  - apply no_equal_str in E. split; [done|]. intros _.
    by apply (ingest_spec File (DStr (toLocalFile u)) st).
Qed.

Lemma process_one_candidate QUrl_of m st :
  heap_ok st → one_candidate m →
  ingested (candidate QUrl_of m).1 (candidate QUrl_of m).2 st
    (process_mime_data QUrl_of m st).
Proof.
  intros Hv. unfold one_candidate, candidate, process_mime_data.
  destruct (hasText m).
  { intros Ht. rewrite bool_decide_eq_true_2 by done.
    destruct (classify_text QUrl_of (text m)) as [dt d]. simpl.
    destruct (existsb _ _) eqn:E; simpl.
    - apply existsb_str_true in E. by split.
    - apply no_equal_str in E. split; [done|]. intros _.
      by apply (ingest_spec dt (DStr d) st). }
  destruct (hasImage m).
  { intros _. simpl. destruct (existsb _ _) eqn:E; simpl.
    - apply existsb_image_true in E. by split.
    - apply no_equal_image in E. split; [done|]. intros _.
      by apply (ingest_spec Image (DPix (fromImage (imageData m))) st). }
  intros (-> & u & -> & Hl & Hp). simpl.
  by apply process_url_ingested.
Qed.

(** *** Classification *)




(** *** Persistence *)

Lemma load_loop_complete recs : ∀ st,
  load_loop (elem_of_record <$> recs) st = Ok (fold_left load_one recs st).
Proof.
  induction recs as [|d recs IH]; intros st; [done|].
  simpl. rewrite IH. by destruct d.
Qed.

(** The two ways to write a well-formed history file are loaded alike. *)
Lemma load_Json_Parsed recs st :
  load_items_from_file (Json (JArray (elem_of_record <$> recs))) st =
    load_items_from_file (Parsed recs) st.
Proof. simpl. by rewrite load_loop_complete. Qed.

Lemma load_loop_incomplete l :
  Exists (λ e, complete e = false) l →
  ∃ e, ∀ st, load_loop l st = Raise e.
Proof.
  induction l as [|x l IH]; intros Hex; [by apply Exists_nil in Hex|].
  destruct (from_dict_subscripts x) as [d|e] eqn:E.
  - apply Exists_cons in Hex as [Hx|Hl].
    + by destruct x as [[?|] [?|] [?|] [?|]|].
    + destruct (IH Hl) as [e He]. exists e. intros st. simpl.
      by rewrite E, He.
  - exists e. intros st. simpl. by rewrite E.
Qed.

Lemma load_loop_not_object n :
  n ≠ 0%nat → ∀ st, load_loop (replicate n JNotObject) st = Raise TypeError.
Proof. by destruct n. Qed.

(** C4 (bad history file), as the code has it.  With no history file,
    startup leaves the store empty and the counter at 0.  With a file that is
    unreadable or malformed, [load_items_from_file] returns no item set: the
    exception that [open], [json.load], the loop or [from_dict] raises leaves
    [load_items_from_file] and [__init__], which have no handler; for content
    that is not JSON it is [JSONDecodeError]. *)
Theorem C4_load_outcomes (f : file_state) :
  (f = Absent →
     ∃ st, ClipboardManager_init f = Ok st ∧ items st = [] ∧
           list_widget st = [] ∧ _counter st = 0) ∧
  (malformed f →
     ∃ e, ClipboardManager_init f = Raise e ∧
          ∀ st, load_items_from_file f st = Raise e) ∧
  (f = Unparsable →
     ClipboardManager_init f = Raise JSONDecodeError ∧
     ∀ st, load_items_from_file f st = Raise JSONDecodeError).
Proof.
  split_and!.
  - intros ->. by eexists.
  - unfold ClipboardManager_init.
    destruct f as [| |recs| |[l|keys|s|]]; simpl; try done;
      try (intros _; by eexists).
    + intros Hex. destruct (load_loop_incomplete l Hex) as [e He].
      exists e. split; [|intros st]; by rewrite He.
    + intros Hk. exists TypeError. destruct keys as [|k keys]; [done|].
      by split.
    + intros Hs. exists TypeError.
      assert (String.length s ≠ 0%nat) as Hn by (by destruct s).
      split; [|intros st]; by rewrite load_loop_not_object.
  - by intros ->.
Qed.

Lemma C4_load_outcomes_witness :
  ∃ e, ClipboardManager_init file_missing_index = Raise e ∧
       ∀ st, load_items_from_file file_missing_index st = Raise e.
Proof.
  destruct (C4_load_outcomes file_missing_index) as (_ & H & _). apply H.
  apply Exists_cons. right. apply Exists_cons. by left.
Defined.

(** C4 as the specification states it fails: on a history file that cannot
    be parsed, startup does not return an empty item set; the decoding error
    reaches the caller. *)
Lemma C4_malformed_counterexample :
  ClipboardManager_init Unparsable = Raise JSONDecodeError ∧
  ¬ ∃ st, ClipboardManager_init Unparsable = Ok st ∧ items st = [].
Proof. split; [done|]. by intros (st & Hst & _). Qed.

Lemma filter_all {A : Type} (P : A → Prop) `{!∀ x, Decision (P x)}
    (l : list A) :
  Forall P l → filter P l = l.
Proof.
  induction 1 as [|x l Hx Hl IH]; [done|].
  rewrite filter_cons_True by done. by rewrite IH.
Qed.

Lemma item_of_record_of_dict it :
  (∃ s, data it = DStr s) →
  item_of_record (record_of_dict (to_dict it)) = it.
Proof. intros [s Hs]. destruct it. simpl in *. by subst. Qed.

(** C5 (round trip).  For a store whose entries are all text, URL or file
    entries with string payloads, saving succeeds, loading what was saved
    succeeds, the loaded store holds the same (tag, payload, favorite, index)
    tuples, and its rows are in the display order of the saved store. *)
Theorem C5_round_trip (st st0 : state) :
  Forall (λ it, data_type it ≠ Image ∧ well_typed it) (view st) →
  ∃ recs st',
    save_items_to_file st = (Parsed recs, None) ∧
    load_items_from_file (Parsed recs) st0 = Ok st' ∧
    view st' ≡ₚ view st ∧
    ordered_view st' = ordered_view (reorder_items st) ∧
    (st_inv st → ordered_view st' = ordered_view st).
Proof.
  intros Hall.
  assert (Forall well_typed (view st)) as Ht.
  { eapply Forall_impl; [exact Hall|]. by intros it [_ ?]. }
  assert (Forall (λ it, data_type it ≠ Image) (view st)) as Hni.
  { eapply Forall_impl; [exact Hall|]. by intros it [? _]. }
  exists (record_of_dict <$> encode st).
  destruct (load_parsed_spec (record_of_dict <$> encode st) st0)
    as (st' & E & Hview & _ & Hw & _ & _).
  exists st'. split; [by apply save_items_to_file_ok|]. split; [done|].
  assert (item_of_record <$> (record_of_dict <$> encode st) = view st) as Hrt.
  { unfold encode. fold (view st). rewrite (filter_all _ _ Hni).
    rewrite <- !list_fmap_compose.
    rewrite <- (list_fmap_id (view st)) at 2.
    apply Forall_fmap_ext. eapply Forall_impl; [exact Hall|].
    intros it [Hi Hty]. simpl. apply item_of_record_of_dict.
    by apply typed_not_image_str. }
  rewrite Hrt in Hview.
  assert (ordered_view st' = py_sort sort_key (view st)) as Hrows.
  { unfold ordered_view. rewrite Hw. exact Hview. }
  split_and!.
  - by rewrite Hview, py_sort_perm.
  - change (ordered_view (reorder_items st)) with (view (reorder_items st)).
    by rewrite view_reorder.
  - intros [_ Hw0 Hs]. rewrite Hrows, (py_sort_id _ _ Hs).
    unfold ordered_view, view. by rewrite Hw0.
Qed.

Lemma C5_round_trip_witness :
  ∃ recs st',
    save_items_to_file store_two_strings = (Parsed recs, None) ∧
    load_items_from_file (Parsed recs) process_start = Ok st' ∧
    view st' ≡ₚ view store_two_strings ∧
    ordered_view st' = ordered_view (reorder_items store_two_strings) ∧
    (st_inv store_two_strings →
     ordered_view st' = ordered_view store_two_strings).
Proof.
  apply (C5_round_trip store_two_strings process_start).
  vm_compute. repeat constructor; discriminate.
Defined.

(** C6 (what is saved).  The list handed to [json.dump] has one dict for each
    entry whose tag is not ['image'], in the order of [self.items], with the
    tag, payload, favorite flag and index of that entry, and no dict for an
    image entry.  In a store where a pixmap payload always carries the tag
    ['image'], which is how the program creates its entries, no dict holds a
    pixmap and the file is written with exactly these records. *)
Theorem C6_encode_skips_images (st : state) :
  Forall2 dict_of_item
    (filter (λ it, data_type it ≠ Image) (view st)) (encode st) ∧
  (∀ d, d ∈ encode st → d_data_type d ≠ Image) ∧
  (∀ it, it ∈ view st → data_type it = Image → to_dict it ∉ encode st) ∧
  (Forall well_typed (view st) →
     (∀ d p, d ∈ encode st → d_data d ≠ DPix p) ∧
     save_items_to_file st = (Parsed (record_of_dict <$> encode st), None)).
Proof.
  assert (∀ d, d ∈ encode st → d_data_type d ≠ Image) as Hni.
  { intros d (it & -> & [Hit _]%list_elem_of_filter)%list_elem_of_fmap.
    done. }
  split_and!.
  - unfold encode. fold (view st). apply Forall2_fmap_r, Forall_Forall2_diag.
    apply Forall_forall. by intros it _.
  - done.
  - intros it _ Him Hin. by apply (Hni _ Hin).
  - intros Ht. split; [|by apply save_items_to_file_ok].
    intros d p Hd Hp. pose proof (encode_typed st Ht) as He.
    rewrite Forall_forall in He. destruct (He d Hd) as [s Hs]. congruence.
Qed.

Lemma C6_encode_skips_images_witness :
  (∀ d p, d ∈ encode store_text_and_image → d_data d ≠ DPix p) ∧
  save_items_to_file store_text_and_image =
    (Parsed (record_of_dict <$> encode store_text_and_image), None).
Proof.
  destruct (C6_encode_skips_images store_text_and_image) as (_ & _ & _ & H).
  apply H. vm_compute. repeat constructor.
Defined.

(** *** The counter *)

(** C8 (reset on clear).  After a confirmed [delete_all_items] the item list
    and the widget are empty and the counter is 0; ingesting one payload then
    gives a store with exactly one entry, and its index is 0. *)
Theorem C8_clear_then_ingest (QUrl_of : string → QUrl) (st : state)
    (m : QMimeData) :
  let st0 := delete_all_items true st in
  items st0 = [] ∧ list_widget st0 = [] ∧ _counter st0 = 0 ∧
  (one_candidate m →
     view (process_mime_data QUrl_of m st0) =
       [mkItem (candidate QUrl_of m).1 (candidate QUrl_of m).2 false 0]).
Proof.
  intros st0. split_and!; [done..|]. intros Hm.
  destruct (process_one_candidate QUrl_of m st0) as [_ H]; [constructor|done|].
  destruct H as [H _].
  - simpl. apply not_elem_of_nil.
  - exact H.
Qed.

Lemma C8_clear_then_ingest_witness :
  view (process_mime_data QUrl_file_scheme (mime_text "/etc/hosts")
          (delete_all_items true (proc world_three_items))) =
    [mkItem File (DStr "/etc/hosts") false 0].
Proof.
  apply (C8_clear_then_ingest QUrl_file_scheme (proc world_three_items)
           (mime_text "/etc/hosts")).
  vm_compute. discriminate.
Defined.

(** C9 (counter after a load).  Loading a parsed record list always succeeds
    and sets the counter to 0 for an empty list and to one more than the
    greatest loaded index otherwise, so to 6 for the indices 0, 2, 5; the
    next payload ingested that the store does not hold yet becomes an entry
    whose index is that counter. *)
Theorem C9_counter_after_load (QUrl_of : string → QUrl) (recs : list JRecord)
    (st : state) :
  ∃ st', load_items_from_file (Parsed recs) st = Ok st' ∧
    (recs = [] → _counter st' = 0) ∧
    (recs ≠ [] → is_max (_counter st' - 1) (r_index <$> recs)) ∧
    (r_index <$> recs = [0; 2; 5] → _counter st' = 6) ∧
    (∀ m, one_candidate m →
       ingested (candidate QUrl_of m).1 (candidate QUrl_of m).2 st'
         (process_mime_data QUrl_of m st')).
Proof.
  destruct (load_parsed_spec recs st) as (st' & E & _ & Hc & _ & Hv & _).
  exists st'. split; [done|]. rewrite Hc. split_and!.
  - by intros ->.
  - intros Hne. destruct recs as [|d recs]; [done|]. simpl.
    rewrite Z.add_simpl_r.
    split; [apply py_max_in|]. intros i Hi. by apply py_max_ge.
  - by intros ->.
  - intros m Hm. by apply process_one_candidate.
Qed.

Lemma C9_counter_after_load_witness :
  ∃ st', load_items_from_file (Parsed file_abc) process_start = Ok st' ∧
    _counter st' = 6 ∧
    view (process_mime_data QUrl_file_scheme (mime_text "z") st') =
      py_sort sort_key (view st' ++ [mkItem Text (DStr "z") false 6]).
Proof.
  destruct (C9_counter_after_load QUrl_file_scheme file_abc process_start)
    as (st' & E & _ & _ & H6 & Hing).
  exists st'. split; [exact E|].
  specialize (H6 eq_refl). split; [exact H6|].
  destruct (Hing (mime_text "z")) as [_ H].
  - vm_compute. discriminate.
  - rewrite H6 in H. apply H.
    vm_compute in E. injection E as <-. vm_compute.
    intros Hin. repeat (apply elem_of_cons in Hin as [Hin|Hin]; [done|]).
    by apply elem_of_nil in Hin.
Defined.

(** *** Activation *)

(** C10 (activating a text entry that looks like a path).  For an entry
    tagged ['text'] whose string payload starts with a slash,
    [on_item_clicked] puts the payload on the clipboard as text and then
    treats it as a path: it opens the path if it exists and warns that the
    file does not exist otherwise, exactly as for an entry tagged ['file']
    with the same payload. *)
Theorem C10_text_path_activation (os_path_exists : string → bool)
    (it : ClipboardItem) (s : string) :
  data_type it = Text → data it = DStr s → String.prefix "/" s = true →
  on_item_clicked os_path_exists it =
    Ok (clipboard_setText s ::
        if os_path_exists s then [openUrl_fromLocalFile s]
        else [QMessageBox_warning ("File does not exist: " +:+ s)]) ∧
  on_item_clicked os_path_exists it =
    on_item_clicked os_path_exists
      (mkItem File (data it) (favorite it) (index it)).
Proof.
  intros Hdt Hd Hp. unfold on_item_clicked. simpl. rewrite Hdt, Hd, Hp.
  by destruct (os_path_exists s).
Qed.

Lemma C10_text_path_activation_witness :
  on_item_clicked (λ _, false) (mkItem Text (DStr "/gone") true 4) =
    Ok [clipboard_setText "/gone";
        QMessageBox_warning "File does not exist: /gone"] ∧
  on_item_clicked (λ _, false) (mkItem Text (DStr "/gone") true 4) =
    on_item_clicked (λ _, false) (mkItem File (DStr "/gone") true 4).
Proof.
  apply (C10_text_path_activation (λ _, false)
           (mkItem Text (DStr "/gone") true 4) "/gone"); reflexivity.
Defined.

(** * Further properties of the code *)

(** ** What holds in every reachable world *)

(** X1.  In every reachable world no two entries of the store hold equal
    payloads, whatever mix of clipboard changes, drops, deletions, favorite
    toggles, saves and restarts led there. *)
Theorem reachable_no_equal_payloads (QUrl_of : string → QUrl) (w : world) :
  reachable QUrl_of w →
  ∀ i j a b, i ≠ j →
    view (proc w) !! i = Some a → view (proc w) !! j = Some b →
    ¬ payload_equal (data a) (data b).
Proof.
  intros Hr i j a b Hij Ha Hb Heq. apply payload_equal_eq in Heq.
  apply reachable_inv in Hr as [_ [[_ _ _ _ Hd] _ _]].
  apply Hij. eapply (NoDup_lookup _ i j (data a)); [exact Hd|..].
  - by rewrite list_lookup_fmap, Ha.
  - by rewrite list_lookup_fmap, Hb, Heq.
Qed.

Lemma reachable_no_equal_payloads_witness :
  view (proc world_three_items) !! 0%nat
    = Some (mkItem Url (DStr "http://a") true 1) ∧
  view (proc world_three_items) !! 1%nat
    = Some (mkItem Text (DStr "b") false 0) ∧
  ¬ payload_equal (DStr "http://a") (DStr "b").
Proof.
  split_and!; [reflexivity..|].
  apply (reachable_no_equal_payloads QUrl_file_scheme world_three_items
           world_three_items_reachable 0%nat 1%nat
           (mkItem Url (DStr "http://a") true 1)
           (mkItem Text (DStr "b") false 0)); [lia|reflexivity..].
Defined.

(** X2.  In every reachable world the entries of the store have pairwise
    different indices, all below [ClipboardItem._counter]: the index that the
    next entry receives is held by no entry. *)
Theorem reachable_indices_fresh (QUrl_of : string → QUrl) (w : world) :
  reachable QUrl_of w →
  (∀ i j a b, i ≠ j →
     view (proc w) !! i = Some a → view (proc w) !! j = Some b →
     index a ≠ index b) ∧
  (∀ a, a ∈ view (proc w) → index a < _counter (proc w)).
Proof.
  intros Hr. apply reachable_inv in Hr as [_ [[_ Hx Hb _ _] _ _]]. split.
  - intros i j a b Hij Ha Hb' Heq. apply Hij.
    eapply (NoDup_lookup _ i j (index a)); [exact Hx|..].
    + by rewrite list_lookup_fmap, Ha.
    + by rewrite list_lookup_fmap, Hb', Heq.
  - by apply Forall_forall.
Qed.

Lemma reachable_indices_fresh_witness :
  (∀ i j a b, i ≠ j →
     view (proc world_three_items) !! i = Some a →
     view (proc world_three_items) !! j = Some b →
     index a ≠ index b) ∧
  (∀ a, a ∈ view (proc world_three_items) →
     index a < _counter (proc world_three_items)).
Proof.
  apply (reachable_indices_fresh QUrl_file_scheme world_three_items).
  apply world_three_items_reachable.
Defined.

(** X3.  The program never leaves a history file that it cannot load: in every
    reachable world the file is absent or parsable, and starting a new
    process from it succeeds. *)
Theorem reachable_restart_succeeds (QUrl_of : string → QUrl) (w : world) :
  reachable QUrl_of w →
  file w ≠ Unparsable ∧ ∃ st', ClipboardManager_init (file w) = Ok st'.
Proof.
  intros Hr. apply reachable_inv in Hr as [Hf _].
  destruct (file w) as [| |recs| |j] eqn:E; [| done | | done | done].
  - split; [done|]. by eexists.
  - split; [done|]. unfold ClipboardManager_init.
    destruct (load_parsed_spec recs
      (set_is_paused false (set_items [] process_start))) as (st & Hst & _).
    by exists st.
Qed.

Lemma reachable_restart_succeeds_witness :
  file world_three_items ≠ Unparsable ∧
  ∃ st', ClipboardManager_init (file world_three_items) = Ok st'.
Proof.
  apply (reachable_restart_succeeds QUrl_file_scheme world_three_items).
  apply world_three_items_reachable.
Defined.

Lemma StronglySorted_sublist {A : Type} (R : relation A) (l k : list A) :
  k `sublist_of` l → StronglySorted R l → StronglySorted R k.
Proof.
  induction 1 as [|x k l Hkl IH|x k l Hkl IH]; intros Hs; [done|..].
  - apply StronglySorted_cons in Hs as [Hx Hl].
    apply StronglySorted_cons. split; [|by apply IH].
    rewrite Forall_forall in *. intros y Hy.
    by eapply Hx, elem_of_sublist.
  - apply StronglySorted_cons in Hs as [_ Hl]. by apply IH.
Qed.

Lemma delete_out_of_range {A : Type} (l : list A) i :
  l !! i = None → delete i l = l.
Proof.
  revert i. induction l as [|x l IH]; intros [|i] Hi; simpl in *; try done.
  by rewrite IH.
Qed.

Lemma decode_encode st :
  Forall well_typed (view st) →
  item_of_record <$> (record_of_dict <$> encode st) =
    filter (λ it, data_type it ≠ Image) (view st).
Proof.
  intros Ht. unfold encode. fold (view st).
  set (l := filter (λ it, data_type it ≠ Image) (view st)).
  rewrite <- !list_fmap_compose. rewrite <- (list_fmap_id l) at 2.
  apply Forall_fmap_ext, Forall_forall.
  intros it [Hni Hit]%list_elem_of_filter. simpl.
  apply item_of_record_of_dict, typed_not_image_str; [|done].
  rewrite Forall_forall in Ht. by apply Ht.
Qed.

(** X4.  Quitting and starting again keeps exactly the entries that are not
    images: in every reachable world [cleanup] writes the file without
    raising, the next process loads it, and its store holds the non-image
    entries of the old store with their tags, payloads, favorite flags and
    indices, in the same display order.  The pause flag is not kept. *)
Theorem save_then_restart (QUrl_of : string → QUrl) (w : world) :
  reachable QUrl_of w →
  ∃ recs st',
    save_items_to_file (proc w) = (Parsed recs, None) ∧
    ClipboardManager_init (Parsed recs) = Ok st' ∧
    ordered_view st' =
      filter (λ it, data_type it ≠ Image) (ordered_view (proc w)) ∧
    view st' = ordered_view st' ∧
    is_paused st' = false.
Proof.
  intros Hr. apply reachable_inv in Hr as [_ [[_ _ _ Ht _] Hw Hs]].
  exists (record_of_dict <$> encode (proc w)).
  unfold ClipboardManager_init.
  destruct (load_parsed_spec (record_of_dict <$> encode (proc w))
    (set_is_paused false (set_items [] process_start)))
    as (st' & E & Hview & _ & Hw' & _ & Hp).
  exists st'. split; [by apply save_items_to_file_ok|]. split; [done|].
  assert (ordered_view st' = view st') as Hov.
  { unfold ordered_view, view. by rewrite Hw'. }
  assert (ordered_view (proc w) = view (proc w)) as Hov0.
  { unfold ordered_view, view. by rewrite Hw. }
  rewrite Hov, Hov0. split_and!; [|done..].
  rewrite Hview, (decode_encode _ Ht). apply py_sort_id.
  eapply StronglySorted_sublist; [apply sublist_filter|done].
Qed.

Lemma save_then_restart_witness :
  ∃ recs st',
    save_items_to_file (proc world_three_items) = (Parsed recs, None) ∧
    ClipboardManager_init (Parsed recs) = Ok st' ∧
    ordered_view st' =
      filter (λ it, data_type it ≠ Image)
        (ordered_view (proc world_three_items)) ∧
    view st' = ordered_view st' ∧
    is_paused st' = false.
Proof.
  apply (save_then_restart QUrl_file_scheme world_three_items).
  apply world_three_items_reachable.
Defined.

(** X5.  In every reachable world deleting a row never raises: it removes that row
    and the entry it shows, leaves the other entries, their order and their
    indices as they are, and does not touch the counter. *)
Theorem reachable_delete_item (QUrl_of : string → QUrl) (w : world)
    (row : nat) :
  reachable QUrl_of w →
  ∃ st', delete_item row (proc w) = Ok st' ∧
    ordered_view st' = delete row (ordered_view (proc w)) ∧
    view st' = ordered_view st' ∧
    _counter st' = _counter (proc w) ∧
    is_paused st' = is_paused (proc w).
Proof.
  intros Hr. apply reachable_inv in Hr as [_ Hinv].
  rewrite (delete_item_ok row _ Hinv). eexists. split; [done|].
  destruct Hinv as [_ Hw _]. unfold ordered_view, view.
  destruct (list_widget (proc w) !! row) as [r|] eqn:E; simpl.
  - rewrite Hw. by rewrite list_fmap_delete.
  - rewrite Hw. split_and!; try done.
    rewrite delete_out_of_range; [done|].
    rewrite Hw in E. by rewrite list_lookup_fmap, E.
Qed.

Lemma reachable_delete_item_witness :
  ∃ st', delete_item 0 (proc world_three_items) = Ok st' ∧
    ordered_view st' = delete 0%nat (ordered_view (proc world_three_items)) ∧
    view st' = ordered_view st' ∧
    _counter st' = _counter (proc world_three_items) ∧
    is_paused st' = is_paused (proc world_three_items).
Proof.
  apply (reachable_delete_item QUrl_file_scheme world_three_items).
  apply world_three_items_reachable.
Defined.

(** ** Ingestion *)

Lemma grows_refl st : heap_ok st → grows st st.
Proof. intros Hv. repeat split; [done|done|lia|lia]. Qed.

Lemma grows_trans st1 st2 st3 : grows st1 st2 → grows st2 st3 → grows st1 st3.
Proof.
  intros (_ & H1 & Hp1 & Hc1 & Hn1) (Hv & H2 & Hp2 & Hc2 & Hn2).
  split_and!; [done|auto|congruence|lia|lia].
Qed.

Lemma ingest_grows dt d st :
  heap_ok st →
  let '(r, st1) := ClipboardItem_init dt d false st in
  grows st (add_item_to_list r st1).
Proof.
  intros Hv. pose proof (ingest_spec dt d st Hv) as [Hview Hc].
  unfold ClipboardItem_init, add_item_to_list in *.
  split_and!.
  - unfold heap_ok. rewrite items_reorder, py_sort_perm. simpl.
    rewrite length_app. simpl. apply Forall_app. split.
    + eapply Forall_impl; [exact Hv|]. simpl. lia.
    + constructor; [lia|constructor].
  - intros it Hit. rewrite Hview, py_sort_perm. apply elem_of_app. by left.
  - done.
  - rewrite Hview, py_sort_perm, length_app. simpl. lia.
  - simpl. lia.
Qed.

Lemma process_url_grows st u : heap_ok st → grows st (process_url st u).
Proof.
  intros Hv. unfold process_url.
  destruct (isLocalFile u); [|by apply grows_refl].
  case_bool_decide; [|by apply grows_refl].
  destruct (existsb _ _); simpl; [by apply grows_refl|].
  by apply (ingest_grows File (DStr (toLocalFile u)) st).
Qed.

Lemma process_urls_grows l : ∀ st,
  heap_ok st →
  grows st (fold_left process_url l st) ∧
  _counter (fold_left process_url l st) - _counter st ≤ Z.of_nat (length l).
Proof.
  induction l as [|u l IH]; simpl; intros st Hv.
  - split; [by apply grows_refl|lia].
  - pose proof (process_url_grows st u Hv) as Hg.
    destruct (IH (process_url st u)) as [Hg' Hn]; [apply Hg|].
    split; [by eapply grows_trans|].
    assert (_counter (process_url st u) - _counter st ≤ 1); [|lia].
    unfold process_url. destruct (isLocalFile u); [|lia].
    case_bool_decide; [|lia]. destruct (existsb _ _); simpl; lia.
Qed.

Lemma process_mime_data_grows QUrl_of m st :
  heap_ok st →
  grows st (process_mime_data QUrl_of m st) ∧
  _counter (process_mime_data QUrl_of m st) - _counter st ≤ candidates_bound m.
Proof.
  intros Hv. unfold process_mime_data, candidates_bound.
  destruct (hasText m).
  { case_bool_decide; [|split; [by apply grows_refl|lia]].
    destruct (classify_text QUrl_of (text m)) as [dt d].
    destruct (existsb _ _); simpl; [split; [by apply grows_refl|lia]|].
    split; [by apply (ingest_grows dt (DStr d) st)|lia]. }
  destruct (hasImage m).
  { destruct (existsb _ _); simpl; [split; [by apply grows_refl|lia]|].
    split; [|lia].
    by apply (ingest_grows Image (DPix (fromImage (imageData m))) st). }
  destruct (hasUrls m); [by apply process_urls_grows|].
  split; [by apply grows_refl|lia].
Qed.

(** X6.  Ingestion only adds.  Whatever the clipboard holds, every entry of the
    store is still there afterwards with its tag, payload, favorite flag and
    index; the pause flag is as before; the counter has advanced by exactly
    the number of entries added, which is at most one for a text or an image
    and at most the number of URLs for a URL list. *)
Theorem process_mime_data_only_adds (QUrl_of : string → QUrl) (m : QMimeData)
    (st : state) :
  heap_ok st →
  let st' := process_mime_data QUrl_of m st in
  (∀ it, it ∈ view st → it ∈ view st') ∧
  is_paused st' = is_paused st ∧
  _counter st' - _counter st =
    Z.of_nat (length (view st')) - Z.of_nat (length (view st)) ∧
  0 ≤ _counter st' - _counter st ≤ candidates_bound m.
Proof.
  intros Hv st'.
  destruct (process_mime_data_grows QUrl_of m st Hv)
    as [(_ & H1 & H2 & H3 & H4) H5].
  by split_and!.
Qed.

Lemma process_mime_data_only_adds_witness :
  let st := proc world_three_items in
  let st' := process_mime_data QUrl_file_scheme (mime_text "new") st in
  (∀ it, it ∈ view st → it ∈ view st') ∧
  is_paused st' = is_paused st ∧
  _counter st' - _counter st =
    Z.of_nat (length (view st')) - Z.of_nat (length (view st)) ∧
  0 ≤ _counter st' - _counter st ≤ candidates_bound (mime_text "new").
Proof.
  apply (process_mime_data_only_adds QUrl_file_scheme (mime_text "new")
           (proc world_three_items)).
  vm_compute. repeat constructor.
Defined.

Lemma existsb_str_of_elem st s :
  DStr s ∈ data <$> view st →
  existsb (λ r, data_eq_str (data (deref st r)) s) (items st) = true.
Proof.
  intros Hin. destruct (existsb _ _) eqn:E; [done|].
  by apply no_equal_str in E.
Qed.

Lemma existsb_image_of_elem st pixmap :
  DPix pixmap ∈ data <$> view st →
  existsb (λ r, same_image (data (deref st r)) pixmap) (items st) = true.
Proof.
  intros Hin. destruct (existsb _ _) eqn:E; [done|].
  by apply no_equal_image in E.
Qed.

Lemma grows_data st st' d :
  grows st st' → d ∈ data <$> view st → d ∈ data <$> view st'.
Proof.
  intros (_ & H & _) (it & -> & Hit)%list_elem_of_fmap.
  by apply list_elem_of_fmap_2, H.
Qed.

Lemma ingested_holds dt d st st' :
  ingested dt d st st' → d ∈ data <$> view st'.
Proof.
  intros [H1 H2]. destruct (decide (d ∈ data <$> view st)) as [Hin|Hnin].
  - by rewrite (H1 Hin).
  - destruct (H2 Hnin) as [-> _]. rewrite py_sort_perm, fmap_app.
    apply elem_of_app. right. simpl. left.
Qed.

Lemma process_url_present st u :
  (isLocalFile u = true → toLocalFile u ≠ "" →
   DStr (toLocalFile u) ∈ data <$> view st) →
  process_url st u = st.
Proof.
  intros H. unfold process_url. destruct (isLocalFile u); [|done].
  case_bool_decide as Hp; [|done].
  by rewrite (existsb_str_of_elem st _ (H eq_refl Hp)).
Qed.

Lemma process_urls_present l : ∀ st,
  Forall (λ u, isLocalFile u = true → toLocalFile u ≠ "" →
               DStr (toLocalFile u) ∈ data <$> view st) l →
  fold_left process_url l st = st.
Proof.
  induction l as [|u l IH]; simpl; intros st Hall; [done|].
  apply Forall_cons in Hall as [Hu Hl].
  rewrite (process_url_present st u Hu). by apply IH.
Qed.

Lemma process_urls_covers l : ∀ st,
  heap_ok st →
  Forall (λ u, isLocalFile u = true → toLocalFile u ≠ "" →
               DStr (toLocalFile u) ∈
                 data <$> view (fold_left process_url l st)) l.
Proof.
  induction l as [|u l IH]; simpl; intros st Hv; [constructor|].
  pose proof (process_url_grows st u Hv) as Hg.
  constructor; [|apply IH, Hg].
  intros Hl Hp.
  destruct (process_urls_grows l (process_url st u)) as [Hg' _]; [apply Hg|].
  eapply grows_data; [exact Hg'|].
  eapply ingested_holds. by apply process_url_ingested.
Qed.

(** X7.  Copying the same content again changes nothing: handling a clipboard
    content a second time, right after the first, leaves the state that the
    first handling produced, for a text, an image or a list of URLs. *)
Theorem process_mime_data_idempotent (QUrl_of : string → QUrl)
    (m : QMimeData) (st : state) :
  heap_ok st →
  process_mime_data QUrl_of m (process_mime_data QUrl_of m st) =
    process_mime_data QUrl_of m st.
Proof.
  intros Hv.
  destruct (process_mime_data_grows QUrl_of m st Hv) as [(Hv' & _) _].
  destruct (hasText m) eqn:Ht.
  { destruct (decide (text m = "")) as [He|Hne].
    - unfold process_mime_data. rewrite Ht, He. done.
    - assert (one_candidate m) as Hm.
      { unfold one_candidate. by rewrite Ht. }
      pose proof (process_one_candidate QUrl_of m st Hv Hm) as H1.
      pose proof (process_one_candidate QUrl_of m _ Hv' Hm) as [H2 _].
      apply H2. by eapply ingested_holds. }
  destruct (hasImage m) eqn:Hi.
  { assert (one_candidate m) as Hm.
    { unfold one_candidate. by rewrite Ht, Hi. }
    pose proof (process_one_candidate QUrl_of m st Hv Hm) as H1.
    pose proof (process_one_candidate QUrl_of m _ Hv' Hm) as [H2 _].
    apply H2. by eapply ingested_holds. }
  unfold process_mime_data. rewrite Ht, Hi.
  destruct (hasUrls m); [|done].
  apply process_urls_present, process_urls_covers, Hv.
Qed.

Lemma process_mime_data_idempotent_witness :
  process_mime_data QUrl_file_scheme mime_text_and_image
    (process_mime_data QUrl_file_scheme mime_text_and_image
       (proc world_three_items)) =
  process_mime_data QUrl_file_scheme mime_text_and_image
    (proc world_three_items).
Proof.
  apply (process_mime_data_idempotent QUrl_file_scheme mime_text_and_image
           (proc world_three_items)).
  vm_compute. repeat constructor.
Defined.

(** X8.  Content from which nothing can be taken is dropped without a trace: when
    the clipboard offers neither a text nor an image, and no URL of its list
    is a local file with a non-empty path, the state is left as it is. *)
Theorem process_mime_data_no_candidate (QUrl_of : string → QUrl)
    (m : QMimeData) (st : state) :
  hasText m = false → hasImage m = false →
  Forall (λ u, isLocalFile u = false ∨ toLocalFile u = "") (urls m) →
  process_mime_data QUrl_of m st = st.
Proof.
  intros Ht Hi Hu. unfold process_mime_data. rewrite Ht, Hi.
  destruct (hasUrls m); [|done]. apply process_urls_present.
  eapply Forall_impl; [exact Hu|]. intros u [H|H] Hl Hp; congruence.
Qed.

Lemma process_mime_data_no_candidate_witness :
  process_mime_data QUrl_file_scheme
    (mkMime false "" false one_pixel true
            [mkQUrl false ""; mkQUrl true ""])
    (proc world_three_items)
  = proc world_three_items.
Proof.
  apply (process_mime_data_no_candidate QUrl_file_scheme); [reflexivity..|].
  apply Forall_cons. split; [by left|].
  apply Forall_cons. split; [by right|apply Forall_nil_2].
Defined.

Lemma sorted_snoc_new st it :
  st_inv st → favorite it = false → index it = _counter st →
  StronglySorted (key_le sort_key) (view st ++ [it]).
Proof.
  intros [[_ _ Hb _ _] _ Hs] Hf Hi.
  apply StronglySorted_app. split_and!; [|done|repeat constructor].
  intros x y Hx ->%list_elem_of_singleton.
  rewrite Forall_forall in Hb. specialize (Hb x Hx).
  unfold key_le, sort_key, tuple_lt. simpl. rewrite Hf, Hi. simpl.
  case_bool_decide; [lia|done].
Qed.

(** X9.  A new entry goes to the bottom of the list.  In every reachable world,
    when a clipboard content with one candidate is handled and no entry holds
    its payload yet, the rows afterwards are the rows before followed by one
    row for the new entry, which is not a favorite and carries the counter as
    its index. *)
Theorem new_entry_at_bottom (QUrl_of : string → QUrl) (w : world)
    (m : QMimeData) :
  reachable QUrl_of w → one_candidate m →
  (candidate QUrl_of m).2 ∉ data <$> view (proc w) →
  ordered_view (process_mime_data QUrl_of m (proc w)) =
    ordered_view (proc w) ++
    [mkItem (candidate QUrl_of m).1 (candidate QUrl_of m).2 false
            (_counter (proc w))].
Proof.
  intros Hr Hm Hnew. apply reachable_inv in Hr as [_ Hinv].
  pose proof (process_mime_data_inv QUrl_of m _ Hinv) as [_ Hw' _].
  pose proof Hinv as [[Hv _ _ _ _] Hw _].
  destruct (process_one_candidate QUrl_of m (proc w) Hv Hm) as [_ H].
  destruct (H Hnew) as [Hview _].
  unfold ordered_view in *. rewrite Hw', Hw. fold (view (proc w)).
  fold (view (process_mime_data QUrl_of m (proc w))).
  rewrite Hview. by apply py_sort_id, sorted_snoc_new.
Qed.

Lemma new_entry_at_bottom_witness :
  ordered_view (process_mime_data QUrl_file_scheme (mime_text "/etc/hosts")
                  (proc world_three_items)) =
    ordered_view (proc world_three_items) ++
    [mkItem File (DStr "/etc/hosts") false 3].
Proof.
  apply (new_entry_at_bottom QUrl_file_scheme world_three_items
           (mime_text "/etc/hosts")).
  - apply world_three_items_reachable.
  - vm_compute. discriminate.
  - vm_compute. intros Hin.
    repeat (apply elem_of_cons in Hin as [Hin|Hin]; [done|]).
    by apply elem_of_nil in Hin.
Defined.

(** X10.  The pause flag gates the clipboard, not the drop target.  While paused, a
    content with one new candidate is ignored when it arrives as a clipboard
    change, but is ingested when it is dropped on the window; the pause flag
    stays set. *)
Theorem drop_ignores_pause (QUrl_of : string → QUrl) (m : QMimeData)
    (st : state) :
  heap_ok st → is_paused st = true → one_candidate m →
  (candidate QUrl_of m).2 ∉ data <$> view st →
  on_clipboard_change QUrl_of m st = st ∧
  view (dropEvent QUrl_of m st) =
    py_sort sort_key
      (view st ++ [mkItem (candidate QUrl_of m).1 (candidate QUrl_of m).2
                          false (_counter st)]) ∧
  length (view (dropEvent QUrl_of m st)) = S (length (view st)) ∧
  is_paused (dropEvent QUrl_of m st) = true.
Proof.
  intros Hv Hp Hm Hnew. unfold on_clipboard_change, dropEvent. rewrite Hp.
  destruct (process_one_candidate QUrl_of m st Hv Hm) as [_ H].
  destruct (H Hnew) as [Hview _].
  destruct (process_mime_data_grows QUrl_of m st Hv) as [(_ & _ & Hp' & _) _].
  split_and!; [done|done| |congruence].
  rewrite Hview, py_sort_perm, length_app. simpl. lia.
Qed.

Lemma drop_ignores_pause_witness :
  let st := toggle_pause (proc world_three_items) in
  on_clipboard_change QUrl_file_scheme (mime_text "new") st = st ∧
  view (dropEvent QUrl_file_scheme (mime_text "new") st) =
    py_sort sort_key
      (view st ++ [mkItem Text (DStr "new") false (_counter st)]) ∧
  length (view (dropEvent QUrl_file_scheme (mime_text "new") st)) =
    S (length (view st)) ∧
  is_paused (dropEvent QUrl_file_scheme (mime_text "new") st) = true.
Proof.
  apply (drop_ignores_pause QUrl_file_scheme (mime_text "new")
           (toggle_pause (proc world_three_items))).
  - vm_compute. repeat constructor.
  - reflexivity.
  - vm_compute. discriminate.
  - vm_compute. intros Hin.
    repeat (apply elem_of_cons in Hin as [Hin|Hin]; [done|]).
    by apply elem_of_nil in Hin.
Defined.

Lemma paused_changes_ignored QUrl_of events st :
  is_paused st = true → on_clipboard_changes QUrl_of events st = st.
Proof.
  intros Hp. unfold on_clipboard_changes.
  induction events as [|m events IH]; simpl; [done|].
  unfold on_clipboard_change at 2. by rewrite Hp.
Qed.

(** X11.  Pausing, any number of clipboard changes, and resuming give back the
    state before the pause, whole: nothing that was copied in between is
    kept, and no index is used up. *)
Theorem pause_changes_resume (QUrl_of : string → QUrl)
    (events : list QMimeData) (st : state) :
  is_paused st = false →
  toggle_pause (on_clipboard_changes QUrl_of events (toggle_pause st)) = st.
Proof.
  intros Hp. rewrite paused_changes_ignored.
  - destruct st. simpl in *. by rewrite Hp.
  - simpl. by rewrite Hp.
Qed.

Lemma pause_changes_resume_witness :
  toggle_pause
    (on_clipboard_changes QUrl_file_scheme
       [mime_text "x"; mime_image; mime_text_and_image]
       (toggle_pause (proc world_three_items)))
  = proc world_three_items.
Proof.
  apply (pause_changes_resume QUrl_file_scheme). reflexivity.
Defined.

(** ** Favorites *)

Lemma tuple_lt_antisym a b :
  tuple_lt a b = false → tuple_lt b a = false → a = b.
Proof.
  destruct a as [[] x], b as [[] y]; unfold tuple_lt; simpl;
    repeat case_bool_decide; try done; intros; f_equal; lia.
Qed.

Lemma NoDup_fmap_inj_on {A B : Type} (f : A → B) (l : list A) x y :
  NoDup (f <$> l) → x ∈ l → y ∈ l → f x = f y → x = y.
Proof.
  intros Hnd [i Hi]%list_elem_of_lookup_1 [j Hj]%list_elem_of_lookup_1 Heq.
  assert (i = j) as ->; [|congruence].
  eapply (NoDup_lookup _ i j (f x)); [exact Hnd|..].
  - by rewrite list_lookup_fmap, Hi.
  - by rewrite list_lookup_fmap, Hj, Heq.
Qed.

(** When the second components of the keys are pairwise different, the
    sorted list depends on the elements only, not on their order. *)
Lemma py_sort_perm_eq {A : Type} (key : A → bool * Z) (l1 l2 : list A) :
  l1 ≡ₚ l2 → NoDup (snd ∘ key <$> l1) → py_sort key l1 = py_sort key l2.
Proof.
  intros Hp Hnd.
  apply (StronglySorted_unique_strong (key_le key)).
  - intros x y Hx Hy Hxy Hyx.
    rewrite py_sort_perm in Hx. rewrite py_sort_perm, <- Hp in Hy.
    apply (NoDup_fmap_inj_on _ _ _ _ Hnd Hx Hy). simpl.
    by rewrite (tuple_lt_antisym _ _ Hxy Hyx).
  - apply py_sort_sorted.
  - apply py_sort_sorted.
  - by rewrite !py_sort_perm.
Qed.

Lemma view_set_favorite st row r :
  heap_ok st → NoDup (items st) → items st !! row = Some r →
  view (set_heap (<[r := flip_favorite (deref st r)]> (heap st)) st) =
    <[row := flip_favorite (deref st r)]> (view st).
Proof.
  intros Hv Hnd Hrow. apply list_eq. intros i. unfold view. simpl.
  rewrite list_lookup_insert, length_fmap, !list_lookup_fmap.
  destruct (items st !! i) as [r'|] eqn:Hi; simpl.
  - unfold deref at 1. simpl. rewrite list_lookup_total_insert.
    assert (r < length (heap st))%nat as Hlt.
    { unfold heap_ok in Hv. rewrite Forall_forall in Hv. apply Hv.
      by eapply list_elem_of_lookup_2. }
    destruct (decide (row = i)) as [->|Hne].
    + assert (r' = r) as -> by congruence.
      rewrite decide_True by done. rewrite decide_True; [done|].
      split; [done|]. by eapply lookup_lt_Some.
    + rewrite decide_False.
      * by rewrite decide_False by (intros [? _]; done).
      * intros [-> _]. apply Hne. by eapply NoDup_lookup.
  - rewrite decide_False; [done|]. intros [-> _]. congruence.
Qed.

(** X12.  Starring or unstarring a row changes that entry's favorite flag and
    nothing else.  In every reachable world the rows afterwards are the rows
    before, with the flag of the chosen row flipped, put back in display
    order; tags, payloads and indices are as before, no entry is added or
    lost, and the counter and the pause flag are untouched. *)
Theorem toggle_favorite_flips_one (QUrl_of : string → QUrl) (w : world)
    (row : nat) (it : ClipboardItem) :
  reachable QUrl_of w →
  ordered_view (proc w) !! row = Some it →
  let st' := toggle_favorite_item row (proc w) in
  ordered_view st' =
    py_sort sort_key (<[row := flip_favorite it]> (ordered_view (proc w))) ∧
  _counter st' = _counter (proc w) ∧
  is_paused st' = is_paused (proc w).
Proof.
  intros Hr Hrow st'. apply reachable_inv in Hr as [_ Hinv].
  pose proof (toggle_favorite_item_inv row _ Hinv) as [_ Hw' _].
  destruct Hinv as [Hpre Hw _].
  pose proof (pre_inv_NoDup_items _ Hpre) as Hnd.
  destruct Hpre as [Hv _ _ _ _].
  unfold ordered_view in *. rewrite list_lookup_fmap in Hrow.
  fold st' in Hw'. rewrite Hw', Hw.
  unfold st', toggle_favorite_item.
  destruct (list_widget (proc w) !! row) as [r|] eqn:E; [|done].
  simpl in Hrow. injection Hrow as <-. rewrite Hw in E.
  split_and!; [|done..].
  change (view (reorder_items
    (set_heap (<[r := flip_favorite (deref (proc w) r)]> (heap (proc w)))
       (proc w))) =
    py_sort sort_key
      (<[row := flip_favorite (deref (proc w) r)]> (view (proc w)))).
  by rewrite view_reorder, (view_set_favorite _ row r Hv Hnd E).
Qed.

Lemma toggle_favorite_flips_one_witness :
  let st' := toggle_favorite_item 2 (proc world_three_items) in
  let it := mkItem Image (DPix (fromImage one_pixel)) false 2 in
  ordered_view st' =
    py_sort sort_key
      (<[2%nat := flip_favorite it]> (ordered_view (proc world_three_items)))
  ∧ _counter st' = _counter (proc world_three_items)
  ∧ is_paused st' = is_paused (proc world_three_items).
Proof.
  apply (toggle_favorite_flips_one QUrl_file_scheme world_three_items 2%nat
           (mkItem Image (DPix (fromImage one_pixel)) false 2)).
  - apply world_three_items_reachable.
  - reflexivity.
Defined.

Lemma sorted_refs st :
  StronglySorted (key_le sort_key) (view st) →
  StronglySorted (key_le (λ r, sort_key (deref st r))) (items st).
Proof.
  unfold view. generalize (items st). intros l.
  induction l as [|x l IH]; simpl; [constructor|].
  intros [Hx Hl]%StronglySorted_cons. apply StronglySorted_cons.
  split; [|by apply IH]. rewrite Forall_fmap in Hx. exact Hx.
Qed.

Lemma flip_favorite_twice it : flip_favorite (flip_favorite it) = it.
Proof. destruct it. unfold flip_favorite. simpl. by rewrite negb_involutive. Qed.

Lemma py_sort_key_ext {A : Type} (k1 k2 : A → bool * Z) (l : list A) :
  (∀ x, k1 x = k2 x) → py_sort k1 l = py_sort k2 l.
Proof.
  intros Hk. induction l as [|x l IH]; simpl; [done|]. rewrite IH.
  generalize (py_sort k2 l). intros m.
  induction m as [|y m IHm]; simpl; [done|]. by rewrite !Hk, IHm.
Qed.

(** X13.  Starring a row and then unstarring the same entry, or the other way
    round, gives back the state exactly: in every reachable world the entry
    has a row after the first toggle, and toggling that row restores the
    heap, the item list, the rows, the pause flag and the counter. *)
Theorem toggle_favorite_twice (QUrl_of : string → QUrl) (w : world)
    (row : nat) (r : ref) :
  reachable QUrl_of w →
  list_widget (proc w) !! row = Some r →
  ∃ row',
    list_widget (toggle_favorite_item row (proc w)) !! row' = Some r ∧
    toggle_favorite_item row' (toggle_favorite_item row (proc w)) = proc w.
Proof.
  intros Hr Hrow. apply reachable_inv in Hr as [_ [Hpre Hw Hs]].
  pose proof (pre_inv_NoDup_items _ Hpre) as Hnd.
  destruct Hpre as [Hv Hx _ _ _].
  generalize dependent (proc w). intros st Hv Hx Hw Hs Hrow Hnd.
  assert (r < length (heap st))%nat as Hlt.
  { rewrite Forall_forall in Hv. apply Hv. rewrite <- Hw.
    by eapply list_elem_of_lookup_2. }
  set (h1 := <[r := flip_favorite (deref st r)]> (heap st)).
  set (st1 := reorder_items (set_heap h1 st)).
  assert (toggle_favorite_item row st = st1) as ->.
  { unfold toggle_favorite_item. by rewrite Hrow. }
  assert (items st1 ≡ₚ items st) as Hperm.
  { unfold st1. rewrite items_reorder. apply py_sort_perm. }
  assert (r ∈ items st1) as [row' Hrow']%list_elem_of_lookup_1.
  { rewrite Hperm, <- Hw. by eapply list_elem_of_lookup_2. }
  exists row'. split; [exact Hrow'|].
  unfold toggle_favorite_item.
  change (list_widget st1) with (items st1). rewrite Hrow'.
  assert (deref st1 r = flip_favorite (deref st r)) as Hd.
  { unfold deref, st1, h1. simpl. by rewrite list_lookup_total_insert_eq. }
  fold (flip_favorite (deref st1 r)). rewrite Hd, flip_favorite_twice.
  assert (<[r := deref st r]> (heap st1) = heap st) as Hh.
  { unfold st1, h1. simpl. rewrite list_insert_insert_eq.
    apply list_insert_id. by apply list_lookup_lookup_total_lt. }
  rewrite Hh.
  assert (py_sort (λ x, sort_key (deref st x)) (items st1) = items st) as Hi.
  { rewrite (py_sort_perm_eq _ _ (items st) Hperm).
    - by apply py_sort_id, sorted_refs.
    - rewrite Hperm. unfold view in Hx.
      rewrite <- list_fmap_compose in Hx. exact Hx. }
  unfold reorder_items. simpl.
  rewrite (py_sort_key_ext _ (λ x, sort_key (deref st x))) by done.
  unfold st1 in Hi. simpl in Hi. rewrite Hi.
  destruct st as [h its lw p c]. simpl in *. by subst lw.
Qed.

Lemma toggle_favorite_twice_witness :
  ∃ row',
    list_widget (toggle_favorite_item 2 (proc world_three_items)) !! row'
      = Some 2%nat ∧
    toggle_favorite_item row'
      (toggle_favorite_item 2 (proc world_three_items))
      = proc world_three_items.
Proof.
  apply (toggle_favorite_twice QUrl_file_scheme world_three_items 2%nat 2%nat).
  - apply world_three_items_reachable.
  - reflexivity.
Defined.

(** ** Loading *)

Lemma next_counter_perm l1 l2 :
  l1 ≡ₚ l2 → next_counter l1 = next_counter l2.
Proof.
  intros Hp. destruct l1 as [|x l], l2 as [|y k]; simpl.
  - done.
  - by apply Permutation_nil_l in Hp.
  - by apply Permutation_nil_r in Hp.
  - pose proof (py_max_in l x) as H1. pose proof (py_max_in k y) as H2.
    rewrite Hp in H1. rewrite <- Hp in H2.
    apply (py_max_ge k y) in H1. apply (py_max_ge l x) in H2. lia.
Qed.

(** X14.  The order of the records in the history file does not matter: two files
    that hold the same records, with pairwise different indices, are loaded
    to the same entries in the same rows and to the same counter, whatever
    the state before the load. *)
Theorem load_order_irrelevant (recs1 recs2 : list JRecord) (st1 st2 : state) :
  recs1 ≡ₚ recs2 → NoDup (r_index <$> recs1) →
  ∃ st1' st2',
    load_items_from_file (Parsed recs1) st1 = Ok st1' ∧
    load_items_from_file (Parsed recs2) st2 = Ok st2' ∧
    ordered_view st1' = ordered_view st2' ∧
    view st1' = view st2' ∧
    _counter st1' = _counter st2'.
Proof.
  intros Hp Hnd.
  destruct (load_parsed_spec recs1 st1) as (s1 & E1 & Hv1 & Hc1 & Hw1 & _).
  destruct (load_parsed_spec recs2 st2) as (s2 & E2 & Hv2 & Hc2 & Hw2 & _).
  exists s1, s2. split; [done|]. split; [done|].
  assert (view s1 = view s2) as Hview.
  { rewrite Hv1, Hv2. apply py_sort_perm_eq; [by rewrite Hp|].
    by rewrite <- list_fmap_compose. }
  split_and!; [|done|].
  - unfold ordered_view. rewrite Hw1, Hw2. exact Hview.
  - rewrite Hc1, Hc2. apply next_counter_perm. by rewrite Hp.
Qed.

Lemma load_order_irrelevant_witness :
  ∃ st1' st2',
    load_items_from_file (Parsed file_abc) process_start = Ok st1' ∧
    load_items_from_file (Parsed (reverse file_abc)) process_start = Ok st2' ∧
    ordered_view st1' = ordered_view st2' ∧
    view st1' = view st2' ∧
    _counter st1' = _counter st2'.
Proof.
  apply (load_order_irrelevant file_abc (reverse file_abc)).
  - apply Permutation_sym, reverse_Permutation.
  - apply (bool_decide_unpack _). vm_compute. exact I.
Defined.

(** ** Activation *)

(** X15.  Whatever the entry, when [on_item_clicked] returns it has first
    handed the payload to the clipboard, by [setPixmap] for an entry tagged
    ['image'] and by [setText] otherwise, and then done one more thing; it
    asks the desktop to open a local path only if that path is the payload
    and exists, and it warns only about a payload that is a path that does
    not exist. *)
Theorem on_item_clicked_effects (os_path_exists : string → bool)
    (it : ClipboardItem) (effs : list effect) :
  on_item_clicked os_path_exists it = Ok effs →
  (∃ e, effs = [clipboard_request it; e]) ∧
  (∀ p, openUrl_fromLocalFile p ∈ effs →
        data it = DStr p ∧ os_path_exists p = true) ∧
  (∀ msg, QMessageBox_warning msg ∈ effs →
        ∃ p, data it = DStr p ∧ os_path_exists p = false ∧
             msg = "File does not exist: " +:+ p).
Proof.
  unfold on_item_clicked, clipboard_request.
  destruct (data_type it), (data it) as [s|p]; try done;
    repeat match goal with
           | |- context [if ?b then _ else _] => destruct b eqn:?
           end;
    intros [= <-]; (split_and!; [by eexists|..]);
    intros x Hx;
    repeat (apply elem_of_cons in Hx as [Hx|Hx]; [try done|]);
    try (by apply elem_of_nil in Hx);
    try (injection Hx as ->; by eauto).
Qed.

Lemma on_item_clicked_effects_witness :
  let it := mkItem Image (DStr "x") false 0 in
  let effs := [clipboard_setPixmap_str "x";
               QMessageBox_information "Image copied to clipboard."] in
  (∃ e, effs = [clipboard_request it; e]) ∧
  (∀ p, openUrl_fromLocalFile p ∈ effs →
        data it = DStr p ∧ empty_disk p = true) ∧
  (∀ msg, QMessageBox_warning msg ∈ effs →
        ∃ p, data it = DStr p ∧ empty_disk p = false ∧
             msg = "File does not exist: " +:+ p).
Proof.
  apply (on_item_clicked_effects empty_disk (mkItem Image (DStr "x") false 0)).
  reflexivity.
Defined.

(** ** Rows and context menu *)

Lemma string_length_app s t :
  String.length (s +:+ t) = (String.length s + String.length t)%nat.
Proof.
  induction s as [|c s IH]; [done|].
  change (S (String.length (s +:+ t)) =
          S (String.length s + String.length t)).
  by rewrite IH.
Qed.

Lemma string_app_empty_r s : s +:+ "" = s.
Proof.
  induction s as [|c s IH]; [done|].
  change (String c (s +:+ "") = String c s). by rewrite IH.
Qed.

Lemma substring_whole n : ∀ s,
  (String.length s ≤ n)%nat → String.substring 0 n s = s.
Proof.
  induction n as [|n IH]; intros [|c s] Hn; simpl in *; try done; [lia|].
  rewrite IH; [done|lia].
Qed.

Lemma substring_length n : ∀ s,
  (n ≤ String.length s)%nat → String.length (String.substring 0 n s) = n.
Proof.
  induction n as [|n IH]; intros [|c s] Hn; simpl in *; try done; [lia|].
  rewrite IH; [done|lia].
Qed.

Lemma display_text_cases (s : string) :
  ((String.length s ≤ 180)%nat → display_text s = s) ∧
  ((180 < String.length s)%nat →
     String.length (display_text s) = 183%nat).
Proof.
  unfold display_text.
  destruct (Nat.ltb_spec 180 (String.length s)) as [Hlt|Hle].
  - rewrite string_length_app, substring_length by lia.
    change (String.length "...") with 3%nat. split; lia.
  - rewrite string_app_empty_r, substring_whole by lia.
    split; [done|lia].
Qed.

(** X16.  The text of a row is the payload itself when the payload has at most 180
    characters, and has exactly 183 characters otherwise; it is never longer
    than 183 characters. *)
Theorem display_text_length (s : string) :
  ((String.length s ≤ 180)%nat → display_text s = s) ∧
  ((180 < String.length s)%nat →
     String.length (display_text s) = 183%nat) ∧
  (String.length (display_text s) ≤ 183)%nat.
Proof.
  destruct (display_text_cases s) as [Hshort Hlong].
  split_and!; [done..|].
  destruct (Nat.ltb_spec 180 (String.length s)) as [Hlt|Hle].
  - rewrite Hlong by done. lia.
  - rewrite Hshort by done. lia.
Qed.

Lemma display_text_length_witness :
  String.length (display_text long_text) = 183%nat.
Proof.
  destruct (display_text_length long_text) as (_ & H & _). apply H.
  vm_compute. lia.
Defined.

Lemma menu_labels (fav long : bool) :
  let menu :=
    [if fav then "Unfavorite" else "Favorite"; "Delete"] ++
    (if long then ["Save to File"] else []) in
  "Delete" ∈ menu ∧
  ("Unfavorite" ∈ menu ↔ fav = true) ∧
  ("Favorite" ∈ menu ↔ fav = false) ∧
  ("Save to File" ∈ menu ↔ long = true).
Proof.
  destruct fav, long; simpl; rewrite !elem_of_cons, !elem_of_nil;
    intuition (auto; try discriminate).
Qed.

Lemma row_and_menu_str (it : ClipboardItem) (s : string) (c : option string) :
  let long := (180 <? String.length s)%nat in
  let row := mkRow (display_text s) None c (favorite it) in
  let menu :=
    [if favorite it then "Unfavorite" else "Favorite"; "Delete"] ++
    (if long then ["Save to File"] else []) in
  "Delete" ∈ menu ∧
  ("Unfavorite" ∈ menu ↔ favorite it = true) ∧
  ("Favorite" ∈ menu ↔ favorite it = false) ∧
  row_bold row = favorite it ∧
  ("Save to File" ∈ menu ↔ String.length (row_text row) = 183%nat) ∧
  ("Save to File" ∉ menu → DStr s = DStr (row_text row)).
Proof.
  intros long row menu.
  destruct (menu_labels (favorite it) long) as (H1 & H2 & H3 & H4).
  destruct (display_text_cases s) as (Hshort & Hlong).
  fold menu in H1, H2, H3, H4. split_and!; [done..| |].
  - rewrite H4. unfold long. simpl.
    destruct (Nat.ltb_spec 180 (String.length s)) as [Hlt|Hle].
    + split; [by auto|done].
    + rewrite Hshort by done. split; [done|lia].
  - rewrite H4. unfold long. simpl.
    destruct (Nat.ltb_spec 180 (String.length s)) as [Hlt|Hle]; [done|].
    intros _. by rewrite Hshort.
Qed.

(** X17.  A row shows the whole payload or its menu offers to save it.  For any
    entry, building its row succeeds exactly when building its menu does;
    the menu then always has the delete action, offers "Unfavorite" exactly
    for a favorite, whose row is the bold one, and has "Save to File" exactly
    when the row text is 183 characters long; when that action is missing
    and the entry is not tagged as an image, the row text is the payload. *)
Theorem row_and_menu (it : ClipboardItem) :
  (∃ row menu, list_item_of it = Ok row ∧
     show_item_context_menu it = Ok menu ∧
     "Delete" ∈ menu ∧
     ("Unfavorite" ∈ menu ↔ favorite it = true) ∧
     ("Favorite" ∈ menu ↔ favorite it = false) ∧
     row_bold row = favorite it ∧
     ("Save to File" ∈ menu ↔ String.length (row_text row) = 183%nat) ∧
     ("Save to File" ∉ menu → data_type it ≠ Image →
        data it = DStr (row_text row))) ∨
  (list_item_of it = Raise TypeError ∧
   show_item_context_menu it = Raise TypeError ∧
   data_type it ≠ Image ∧ ∃ p, data it = DPix p).
Proof.
  unfold list_item_of, show_item_context_menu.
  destruct (data_type it) eqn:Hdt, (data it) as [s|p] eqn:Hd;
    try (right; split_and!; [done..|by eexists]); left.
  1,2,5: match goal with
    | |- context [mkRow _ _ ?c _] =>
        exists (mkRow (display_text s) None c (favorite it)),
          ([if favorite it then "Unfavorite" else "Favorite"; "Delete"] ++
           (if (180 <? String.length s)%nat then ["Save to File"] else []));
        pose proof (row_and_menu_str it s c) as H
    end;
    cbv zeta in H; (split; [done|]);
    (split; [by destruct (180 <? String.length s)%nat|]);
    destruct H as (H1 & H2 & H3 & H4 & H5 & H6); split_and!; auto.
  all: exists (mkRow "Image" (Some (data it)) None (favorite it)),
         ([if favorite it then "Unfavorite" else "Favorite"; "Delete"] ++ []);
    rewrite ?Hd; (split; [done|]); (split; [done|]);
    pose proof (menu_labels (favorite it) false) as (H1 & H2 & H3 & H4);
    cbv zeta in *; split_and!; try done.
  all: try (split; [intros H; by apply H4 in H|done]).
  all: by (intros _ Hni).
Qed.

(** ** Export *)

Lemma string_app_inj_r t : ∀ a b, a +:+ t = b +:+ t → a = b.
Proof.
  induction a as [|c a IH]; intros [|d b] H.
  - done.
  - apply (f_equal String.length) in H.
    rewrite !string_length_app in H. simpl in H. lia.
  - apply (f_equal String.length) in H.
    rewrite !string_length_app in H. simpl in H. lia.
  - change (String c (a +:+ t) = String d (b +:+ t)) in H.
    injection H as -> H. f_equal. by apply IH.
Qed.

Lemma export_filename_inj d1 d2 :
  export_filename d1 = export_filename d2 → d1 = d2.
Proof.
  unfold export_filename. intros H.
  apply (inj (String.append "qlip_save_")) in H.
  by apply string_app_inj_r in H.
Qed.

(** X18.  Two exports in a row.  The second export is always on disk under its
    timestamped name.  The first one is still there if the two timestamps
    differ, and is overwritten if they are the same, which happens for two
    exports within one second.  No other file is touched, and both exports
    ask the desktop to open the file just written. *)
Theorem save_item_to_file_twice (os_path_abspath : string → string)
    (d1 d2 s1 s2 : string) (it1 it2 : ClipboardItem)
    (fs : gmap string string) :
  data it1 = DStr s1 → data it2 = DStr s2 →
  let '(fs1, r1) := save_item_to_file os_path_abspath d1 it1 fs in
  let '(fs2, r2) := save_item_to_file os_path_abspath d2 it2 fs1 in
  r1 = Ok (openUrl_fromLocalFile (os_path_abspath (export_filename d1))) ∧
  r2 = Ok (openUrl_fromLocalFile (os_path_abspath (export_filename d2))) ∧
  fs2 !! export_filename d2 = Some s2 ∧
  (d1 ≠ d2 → fs2 !! export_filename d1 = Some s1) ∧
  (d1 = d2 → fs2 !! export_filename d1 = Some s2) ∧
  (∀ f, f ≠ export_filename d1 → f ≠ export_filename d2 →
        fs2 !! f = fs !! f).
Proof.
  intros H1 H2. unfold save_item_to_file. rewrite H1, H2.
  fold (export_filename d1). fold (export_filename d2).
  split_and!; [done|done|..].
  - by rewrite lookup_insert_eq.
  - intros Hne. rewrite lookup_insert_ne, lookup_insert_eq; [done|].
    intros Heq. by apply Hne, export_filename_inj.
  - intros ->. by rewrite lookup_insert_eq.
  - intros f Hf1 Hf2. by rewrite !lookup_insert_ne.
Qed.

Lemma save_item_to_file_twice_witness :
  let os_path_abspath := String.append "/home/u/" in
  let '(fs1, r1) :=
    save_item_to_file os_path_abspath "20240101_120000"
      (mkItem Text (DStr "first") false 0) ∅ in
  let '(fs2, r2) :=
    save_item_to_file os_path_abspath "20240101_120000"
      (mkItem Text (DStr "second") false 1) fs1 in
  r1 = Ok (openUrl_fromLocalFile
             (os_path_abspath (export_filename "20240101_120000"))) ∧
  r2 = Ok (openUrl_fromLocalFile
             (os_path_abspath (export_filename "20240101_120000"))) ∧
  fs2 !! export_filename "20240101_120000" = Some "second" ∧
  ("20240101_120000" ≠ "20240101_120000" →
     fs2 !! export_filename "20240101_120000" = Some "first") ∧
  ("20240101_120000" = "20240101_120000" →
     fs2 !! export_filename "20240101_120000" = Some "second") ∧
  (∀ f, f ≠ export_filename "20240101_120000" →
        f ≠ export_filename "20240101_120000" →
        fs2 !! f = (∅ : gmap string string) !! f).
Proof.
  apply (save_item_to_file_twice (String.append "/home/u/")
           "20240101_120000" "20240101_120000" "first" "second"
           (mkItem Text (DStr "first") false 0)
           (mkItem Text (DStr "second") false 1) ∅); reflexivity.
Defined.

(** ** Tags and payloads in reachable worlds *)

Lemma classify_text_entry_ok QUrl_of t c :
  entry_ok (mkItem (classify_text QUrl_of t).1
                   (DStr (classify_text QUrl_of t).2) false c).
Proof.
  unfold classify_text, entry_ok.
  destruct (String.prefix "http://" t) eqn:E1; simpl; [by left|].
  destruct (String.prefix "https://" t) eqn:E2; simpl; [by right|].
  destruct (String.prefix "file://" t) eqn:E3; simpl; [done|].
  destruct (String.prefix "/" t) eqn:E4; simpl; done.
Qed.

Lemma ingest_entry_ok dt d st :
  heap_ok st → Forall entry_ok (view st) →
  entry_ok (mkItem dt d false (_counter st)) →
  let '(r, st1) := ClipboardItem_init dt d false st in
  Forall entry_ok (view (add_item_to_list r st1)).
Proof.
  intros Hv Hall Hnew. pose proof (ingest_spec dt d st Hv) as [Hview _].
  unfold ClipboardItem_init, add_item_to_list in *.
  rewrite Hview, py_sort_perm. apply Forall_app. split; [done|].
  by constructor.
Qed.

Lemma process_url_entry_ok st u :
  heap_ok st → Forall entry_ok (view st) →
  Forall entry_ok (view (process_url st u)).
Proof.
  intros Hv Hall. unfold process_url. destruct (isLocalFile u); [|done].
  case_bool_decide; [|done]. destruct (existsb _ _); simpl; [done|].
  by apply (ingest_entry_ok File (DStr (toLocalFile u)) st).
Qed.

Lemma process_urls_entry_ok l : ∀ st,
  heap_ok st → Forall entry_ok (view st) →
  Forall entry_ok (view (fold_left process_url l st)).
Proof.
  induction l as [|u l IH]; simpl; intros st Hv Hall; [done|].
  apply IH; [apply (process_url_grows st u Hv)|].
  by apply process_url_entry_ok.
Qed.

Lemma process_mime_data_entry_ok QUrl_of m st :
  heap_ok st → Forall entry_ok (view st) →
  Forall entry_ok (view (process_mime_data QUrl_of m st)).
Proof.
  intros Hv Hall. unfold process_mime_data. destruct (hasText m).
  { case_bool_decide; [|done].
    pose proof (classify_text_entry_ok QUrl_of (text m) (_counter st)) as Hc.
    destruct (classify_text QUrl_of (text m)) as [dt d].
    destruct (existsb _ _); simpl; [done|].
    by apply (ingest_entry_ok dt (DStr d) st). }
  destruct (hasImage m).
  { destruct (existsb _ _); simpl; [done|].
    by apply (ingest_entry_ok Image (DPix (fromImage (imageData m))) st). }
  destruct (hasUrls m); [|done]. by apply process_urls_entry_ok.
Qed.

Lemma toggle_favorite_item_entry_ok row st :
  Forall entry_ok (view st) →
  Forall entry_ok (view (toggle_favorite_item row st)).
Proof.
  intros Hall. unfold toggle_favorite_item.
  destruct (list_widget st !! row) as [r|]; [|done].
  rewrite view_reorder, py_sort_perm.
  pose proof (deref_set_favorite st r (negb (favorite (deref st r)))) as Hf.
  simpl in Hf. unfold view in *. rewrite Forall_fmap in *.
  eapply Forall_impl; [exact Hall|]. intros x. unfold entry_ok. simpl.
  destruct (Hf x) as (-> & -> & _). done.
Qed.

Lemma reachable_entries_ok QUrl_of w :
  reachable QUrl_of w →
  Forall entry_ok (view (proc w)) ∧ file_entries_ok (file w).
Proof.
  induction 1 as [|w w' Hr [IHv IHf] Hstep].
  - split; [constructor|done].
  - apply reachable_inv in Hr as [Hfok Hinv].
    pose proof Hinv as [[Hv _ _ Ht _] _ _].
    destruct Hstep; simpl; (split; [|try done]).
    + unfold on_clipboard_change. destruct (is_paused _); [done|].
      by apply process_mime_data_entry_ok.
    + by apply process_mime_data_entry_ok.
    + done.
    + destruct reply_yes; simpl; [constructor|done].
    + rewrite (delete_item_ok row _ Hinv) in H. injection H as <-.
      destruct (list_widget _ !! row); [|done].
      unfold view. simpl. rewrite list_fmap_delete.
      by apply Forall_delete.
    + by apply toggle_favorite_item_entry_ok.
    + done.
    + rewrite (save_items_to_file_ok _ Ht). simpl.
      apply (Forall_fmap item_of_record entry_ok).
      rewrite (decode_encode _ Ht). apply Forall_forall.
      intros it [_ Hit]%list_elem_of_filter.
      rewrite Forall_forall in IHv. by apply IHv.
    + unfold ClipboardManager_init in H.
      destruct (file w) as [| |recs| |j];
        [| done | | by destruct Hfok | by destruct Hfok].
      * injection H as <-. constructor.
      * destruct (load_parsed_spec recs
          (set_is_paused false (set_items [] process_start)))
          as (st2 & E & Hview & _).
        rewrite E in H. injection H as <-.
        rewrite Hview, py_sort_perm. by apply Forall_fmap.
Qed.

(** X19.  Nothing that the program shows can make a handler raise.  For every
    entry shown in a reachable world, building its row and building its
    context menu succeed, and clicking it succeeds with two effects, the
    first of which puts the payload on the clipboard. *)
Theorem reachable_entry_handlers_succeed (QUrl_of : string → QUrl)
    (os_path_exists : string → bool) (w : world) (it : ClipboardItem) :
  reachable QUrl_of w → it ∈ ordered_view (proc w) →
  (∃ row, list_item_of it = Ok row) ∧
  (∃ menu, show_item_context_menu it = Ok menu) ∧
  (∃ e, on_item_clicked os_path_exists it = Ok [clipboard_write it; e]).
Proof.
  intros Hr Hit. pose proof (reachable_entries_ok _ _ Hr) as [Hall _].
  apply reachable_inv in Hr as [_ [_ Hw _]].
  unfold ordered_view in Hit. rewrite Hw in Hit.
  rewrite Forall_forall in Hall. specialize (Hall it Hit).
  unfold entry_ok in Hall.
  unfold list_item_of, show_item_context_menu, on_item_clicked,
    clipboard_write.
  destruct (data_type it), (data it) as [s|p]; try done;
    repeat match goal with
           | |- context [if ?b then _ else _] => destruct b
           end;
    split_and!; by eexists.
Qed.

Lemma reachable_entry_handlers_succeed_witness :
  let it := mkItem Image (DPix (fromImage one_pixel)) false 2 in
  (∃ row, list_item_of it = Ok row) ∧
  (∃ menu, show_item_context_menu it = Ok menu) ∧
  (∃ e, on_item_clicked empty_disk it = Ok [clipboard_write it; e]).
Proof.
  apply (reachable_entry_handlers_succeed QUrl_file_scheme empty_disk
           world_three_items).
  - apply world_three_items_reachable.
  - vm_compute. right. right. left.
Defined.

(** X20.  A text entry of the program's own history is never taken for a path or a
    URL.  In every reachable world the payload of an entry tagged ['text']
    starts with none of [/], [http://], [https://] and [file://], so clicking
    it copies the payload, reports that, and opens nothing; and the payload
    of an entry tagged ['url'] starts with [http://] or [https://]. *)
Theorem reachable_text_entries (QUrl_of : string → QUrl)
    (os_path_exists : string → bool) (w : world) (it : ClipboardItem) :
  reachable QUrl_of w → it ∈ ordered_view (proc w) →
  (data_type it = Text →
     ∃ s, data it = DStr s ∧
       String.prefix "/" s = false ∧ String.prefix "http://" s = false ∧
       String.prefix "https://" s = false ∧
       String.prefix "file://" s = false ∧
       on_item_clicked os_path_exists it =
         Ok [clipboard_setText s;
             QMessageBox_information "Text copied to clipboard."]) ∧
  (data_type it = Url →
     ∃ s, data it = DStr s ∧
       (String.prefix "http://" s = true ∨
        String.prefix "https://" s = true) ∧
       on_item_clicked os_path_exists it =
         Ok [clipboard_setText s; openUrl s]).
Proof.
  intros Hr Hit. pose proof (reachable_entries_ok _ _ Hr) as [Hall _].
  apply reachable_inv in Hr as [_ [_ Hw _]].
  unfold ordered_view in Hit. rewrite Hw in Hit.
  rewrite Forall_forall in Hall. specialize (Hall it Hit).
  unfold entry_ok in Hall. unfold on_item_clicked.
  destruct (data_type it), (data it) as [s|p]; try done; split; try done.
  - intros _. destruct Hall as (H1 & H2 & H3 & H4). exists s.
    rewrite H4. by split_and!.
  - intros _. exists s. by split_and!.
Qed.

Lemma reachable_text_entries_witness :
  let it := mkItem Text (DStr "b") false 0 in
  (data_type it = Text →
     ∃ s, data it = DStr s ∧
       String.prefix "/" s = false ∧ String.prefix "http://" s = false ∧
       String.prefix "https://" s = false ∧
       String.prefix "file://" s = false ∧
       on_item_clicked empty_disk it =
         Ok [clipboard_setText s;
             QMessageBox_information "Text copied to clipboard."]) ∧
  (data_type it = Url →
     ∃ s, data it = DStr s ∧
       (String.prefix "http://" s = true ∨
        String.prefix "https://" s = true) ∧
       on_item_clicked empty_disk it =
         Ok [clipboard_setText s; openUrl s]).
Proof.
  apply (reachable_text_entries QUrl_file_scheme empty_disk
           world_three_items).
  - apply world_three_items_reachable.
  - vm_compute. right. left.
Defined.

(** ** More on ingestion and ordering *)

(** X21.  Equal payloads are taken once, whatever they came as.  When two clipboard
    contents with one candidate each carry the same payload, handling the
    second after the first changes nothing, even if the two arrive in
    different representations or get different tags: a path copied as text
    and the same path copied as a file URL give one entry. *)
Theorem equal_payload_ignored (QUrl_of : string → QUrl) (m1 m2 : QMimeData)
    (st : state) :
  heap_ok st → one_candidate m1 → one_candidate m2 →
  (candidate QUrl_of m1).2 = (candidate QUrl_of m2).2 →
  process_mime_data QUrl_of m2 (process_mime_data QUrl_of m1 st) =
    process_mime_data QUrl_of m1 st.
Proof.
  intros Hv H1 H2 Heq.
  destruct (process_mime_data_grows QUrl_of m1 st Hv) as [(Hv' & _) _].
  pose proof (process_one_candidate QUrl_of m1 st Hv H1) as Hi1.
  destruct (process_one_candidate QUrl_of m2 _ Hv' H2) as [Hi2 _].
  apply Hi2. rewrite <- Heq. by eapply ingested_holds.
Qed.

Lemma equal_payload_ignored_witness :
  let m1 := mime_text "/etc/hosts" in
  let m2 := mkMime false "" false one_pixel true [mkQUrl true "/etc/hosts"] in
  process_mime_data QUrl_file_scheme m2
    (process_mime_data QUrl_file_scheme m1 (proc world_three_items)) =
  process_mime_data QUrl_file_scheme m1 (proc world_three_items).
Proof.
  apply (equal_payload_ignored QUrl_file_scheme (mime_text "/etc/hosts")
           (mkMime false "" false one_pixel true [mkQUrl true "/etc/hosts"])
           (proc world_three_items)).
  - vm_compute. repeat constructor.
  - vm_compute. discriminate.
  - vm_compute. split; [reflexivity|]. eexists. split; [reflexivity|].
    split; [reflexivity|discriminate].
  - reflexivity.
Defined.

(** X22.  Reordering loses nothing and settles at once: after [reorder_items] the
    store holds the same entries as before, the widget shows exactly the
    items of the store in their order, and that order is sorted by (not
    favorite, index); reordering a second time changes nothing. *)
Theorem reorder_items_settles (st : state) :
  view (reorder_items st) ≡ₚ view st ∧
  list_widget (reorder_items st) = items (reorder_items st) ∧
  StronglySorted (key_le sort_key) (view (reorder_items st)) ∧
  reorder_items (reorder_items st) = reorder_items st.
Proof.
  split_and!.
  - by rewrite view_reorder, py_sort_perm.
  - done.
  - rewrite view_reorder. apply py_sort_sorted.
  - unfold reorder_items at 1. simpl.
    rewrite (py_sort_id (λ r, sort_key (deref (reorder_items st) r))); [done|].
    apply sorted_refs. rewrite view_reorder. apply py_sort_sorted.
Qed.
